(** * Attendance front end: action handlers, role router and validators

    A shallow embedding of the browser-side code of the lesson-attendance
    application:

    - [frontend/src/resources/lessons/LessonEdit.js]
      ([handleFileUpload], [handleEnroll], [handleDelete], the unenroll
      [onClick]),
    - [frontend/src/resources/student/StudentLessonView.js]
      ([handleMarkAttendance]),
    - [frontend/src/resources/student/FaceRegistrationPage.js]
      ([handleRegisterFace]),
    - [frontend/src/resources/lessons/LessonCreate.js] ([required]),
    - [frontend/src/App.js] ([App]),
    - [frontend/src/resources/student/StudentLessonList.js] ([fetchLessons]
      and what the list renders), the mount effect, the early returns and
      the files section of [StudentLessonView], the Download button of the
      lesson editor,
    - the script of the static attendance page (the click listener of
      [mark-btn]).

    The handlers are [async] functions that read React state, talk to
    [localStorage], [window.confirm], [fetch] and the DOM, and report through
    react-admin's [notify] and [refresh].  They are embedded in a small monad
    that threads the component state and a log of the effects, and whose
    results are JavaScript completions (normal, [return], [throw]). *)

From Stdlib Require Import String List ZArith Bool Lia.
From Stdlib Require Import DecimalString Ascii.
Import ListNotations.
Open Scope string_scope.

Set Implicit Arguments.
Local Set Warnings "-register-all".

(** ** JavaScript values *)

(** What the embedding needs from the JavaScript engine and cannot compute:
    IEEE numbers with their conversions, and the wording of the engine's
    [TypeError]s. *)
Class Runtime : Type := {
  number : Type;
  (** [ToBoolean] on a number: false for [0], [-0] and [NaN]. *)
  num_truthy : number -> bool;
  (** [Number::toString]. *)
  num_to_string : number -> string;
  (** [Number.prototype.toFixed]. *)
  toFixed : number -> nat -> string;
  (** [parseInt] on a string. *)
  parseInt : string -> number;
  (** Message of the [TypeError] raised by reading property [p] of [null]. *)
  null_read_message : string -> string;
  (** Message of the [TypeError] raised by reading property [p] of
      [undefined]. *)
  undefined_read_message : string -> string;
  (** Message of the [TypeError] raised by calling [p], which is not a
      function. *)
  not_a_function_message : string -> string
}.

Section JavaScript.
Context {RT : Runtime}.

Inductive value : Type :=
| VUndefined
| VNull
| VBool (b : bool)
| VNum (n : number)
| VStr (s : string)
| VArr (items : list value)
| VObj (fields : list (string * value)).

(** A thrown [Error] (also [TypeError], [SyntaxError]): the handlers only read
    its [message]. *)
Record exn : Type := Error { message : string }.

Definition nonempty (s : string) : bool :=
  match s with EmptyString => false | _ => true end.

(** [ToBoolean]. *)
Definition truthy (v : value) : bool :=
  match v with
  | VUndefined | VNull => false
  | VBool b => b
  | VNum n => num_truthy n
  | VStr s => nonempty s
  | VArr _ | VObj _ => true
  end.

(** [a || b]. *)
Definition js_or (a b : value) : value := if truthy a then a else b.

(** [ToString] on the values JSON can produce ([Array.prototype.join] prints
    [null] and [undefined] elements as the empty string). *)
Fixpoint to_string (v : value) : string :=
  match v with
  | VUndefined => "undefined"
  | VNull => "null"
  | VBool true => "true"
  | VBool false => "false"
  | VNum n => num_to_string n
  | VStr s => s
  | VArr items =>
      String.concat ","
        (map (fun x => match x with
                       | VUndefined | VNull => ""
                       | _ => to_string x
                       end) items)
  | VObj _ => "[object Object]"
  end.

(** [new Error(v)]: the message is [ToString v], and stays the prototype's
    empty string when [v] is [undefined]. *)
Definition new_Error (v : value) : exn :=
  match v with
  | VUndefined => Error ""
  | _ => Error (to_string v)
  end.

Fixpoint lookup (key : string) (fields : list (string * value)) : option value :=
  match fields with
  | [] => None
  | (k, v) :: rest => if String.eqb k key then Some v else lookup key rest
  end.

(** [v.key], for the keys this code reads ([id], [user_id], [detail],
    [message], [similarity]), none of which is a property of a prototype. *)
Definition get_prop (v : value) (key : string) : exn + value :=
  match v with
  | VUndefined => inl (Error (undefined_read_message key))
  | VNull => inl (Error (null_read_message key))
  | VObj fields =>
      inr (match lookup key fields with Some x => x | None => VUndefined end)
  | VBool _ | VNum _ | VStr _ | VArr _ => inr VUndefined
  end.

(** [v.toFixed(digits)]: only numbers have the method; a JSON value stored
    under the key [toFixed] of an object is never a function. *)
Definition call_toFixed (v : value) (digits : nat) : exn + string :=
  match v with
  | VNum n => inr (toFixed n digits)
  | VUndefined => inl (Error (undefined_read_message "toFixed"))
  | VNull => inl (Error (null_read_message "toFixed"))
  | VBool _ | VStr _ | VArr _ | VObj _ =>
      inl (Error (not_a_function_message "toFixed"))
  end.

(** [v === s] for a string literal [s]. *)
Definition strict_eq_str (v : value) (s : string) : bool :=
  match v with
  | VStr t => String.eqb t s
  | _ => false
  end.

(** Decimal printing of an integer status code. *)
Definition int_to_string (z : Z) : string :=
  NilZero.string_of_int (Z.to_int z).

End JavaScript.

(** ** The browser, the network and react-admin *)

Section Effects.
Context {RT : Runtime}.

(** A [File] picked in a file input. *)
Record File : Type := { file_name : string; file_bytes : string }.

Inductive Body : Type :=
| NoBody
| FormData (entries : list (string * File))
(** [JSON.stringify v]: the text is kept as the value it prints. *)
| JsonText (v : value).

(** The arguments of one [fetch] call. *)
Record Request : Type := {
  url : string;
  method : string;
  headers : list (string * string);
  body : Body
}.

(** A [Response]: the status line, what [response.json()] settles to (it
    rejects with a [SyntaxError] whose message is engine-specific when the
    body is not JSON) and what [response.text()] resolves to. *)
Record Response : Type := {
  status : Z;
  json : string + value;
  text : string
}.

(** [response.ok]: the status is in the range 200-299. *)
Definition ok (r : Response) : bool :=
  ((200 <=? status r) && (status r <=? 299))%Z.

(** [fetch] rejects on a network failure and resolves on any HTTP status. *)
Inductive FetchResult : Type :=
| Rejected (reason : string)
| Resolved (r : Response).

Inductive Level : Type := Info | Success | Warning | ErrorLevel.

(** One call [notify(text, { type })]; [note_type] is [None] when the options
    are left out. *)
Record Notification : Type := {
  note_text : string;
  note_type : option Level
}.

(** What the handler reads and does not change: the build-time API address,
    the stored session token, the user's answer to [window.confirm], and the
    server behind [fetch]. *)
Record Env : Type := {
  REACT_APP_API_URL : option string;
  stored_token : option string;
  confirm_answer : string -> bool;
  network : Request -> FetchResult
}.

(** One observable effect of a handler. *)
Inductive Event : Type :=
| Fetched (req : Request)
| Notified (n : Notification)
| Refreshed
| Prompted (q : string) (answer : bool)
| ConsoleError (line : string).

(** The effects of a handler in the order they happen, and the values of the
    DOM inputs by element id. *)
Record World : Type := {
  events : list Event;
  dom_value : string -> option string
}.

Definition requests (w : World) : list Request :=
  flat_map (fun e => match e with Fetched r => [r] | _ => [] end) (events w).

Definition notifications (w : World) : list Notification :=
  flat_map (fun e => match e with Notified n => [n] | _ => [] end) (events w).

Definition refreshes (w : World) : nat :=
  length (filter (fun e => match e with Refreshed => true | _ => false end)
                 (events w)).

(** ** Completions and the handler monad *)

Inductive completion (A : Type) : Type :=
| Normal (a : A)
| Return
| Throw (e : exn).
#[global] Arguments Return {A}.
#[global] Arguments Throw {A} e.

Definition M (S A : Type) : Type := S -> World -> completion A * S * World.

Definition ret {S A} (a : A) : M S A := fun s w => (Normal a, s, w).

Definition bind {S A B} (m : M S A) (k : A -> M S B) : M S B :=
  fun s w =>
    match m s w with
    | (Normal a, s', w') => k a s' w'
    | (Return, s', w') => (Return, s', w')
    | (Throw e, s', w') => (Throw e, s', w')
    end.

(** [return;] *)
Definition return_ {S A} : M S A := fun s w => (Return, s, w).

(** [throw e;] *)
Definition throw {S A} (e : exn) : M S A := fun s w => (Throw e, s, w).

(** An expression that may throw, or an awaited promise that may reject. *)
Definition eval {S A} (r : exn + A) : M S A :=
  match r with
  | inl e => throw e
  | inr a => ret a
  end.

(** [try { body } catch (error) { handler }] *)
Definition try_catch {S A} (body : M S A) (handler : exn -> M S A) : M S A :=
  fun s w =>
    match body s w with
    | (Throw e, s', w') => handler e s' w'
    | other => other
    end.

(** [try { body } finally { fin }]: [fin] runs on every completion of [body],
    which is kept when [fin] completes normally. *)
Definition try_finally {S A} (body : M S A) (fin : M S unit) : M S A :=
  fun s w =>
    match body s w with
    | (c, s', w') =>
        match fin s' w' with
        | (Normal _, s'', w'') => (c, s'', w'')
        | (Return, s'', w'') => (Return, s'', w'')
        | (Throw e, s'', w'') => (Throw e, s'', w'')
        end
    end.

Definition when {S} (b : bool) (m : M S unit) : M S unit :=
  if b then m else ret tt.

(** Reading the state of the render the handler closes over, and a state
    setter. *)
Definition read_state {S} : M S S := fun s w => (Normal s, s, w).
Definition set_state {S} (f : S -> S) : M S unit :=
  fun s w => (Normal tt, f s, w).

End Effects.

Declare Scope js_scope.
Delimit Scope js_scope with js.
Notation "x <- m ;; k" := (bind m (fun x => k))
  (at level 61, m at next level, right associativity) : js_scope.
Notation "m ;; k" := (bind m (fun _ => k))
  (at level 61, right associativity) : js_scope.
Open Scope js_scope.

(** ** Primitive effects *)

Section Primitives.
Context {RT : Runtime}.
Variable S : Type.

Definition log (e : Event) (w : World) : World :=
  {| events := events w ++ [e]; dom_value := dom_value w |}.

Definition write_input (id v : string) (w : World) : World :=
  {| events := events w;
     dom_value := fun i => if String.eqb i id then Some v else dom_value w i |}.

(** [process.env.REACT_APP_API_URL || 'http://localhost:8000'] *)
Definition api_base (env : Env) : string :=
  match REACT_APP_API_URL env with
  | Some u => if nonempty u then u else "http://localhost:8000"
  | None => "http://localhost:8000"
  end.

(** [localStorage.getItem('token')]: the stored string, or [null]. *)
Definition localStorage_getItem_token (env : Env) : value :=
  match stored_token env with
  | Some t => VStr t
  | None => VNull
  end.

(** [await fetch(url, init)]: the call is logged, then the server decides. *)
Definition fetch (env : Env) (req : Request) : M S Response :=
  fun s w =>
    match network env req with
    | Rejected reason => (Throw (Error reason), s, log (Fetched req) w)
    | Resolved r => (Normal r, s, log (Fetched req) w)
    end.

(** [await response.json()] *)
Definition response_json (r : Response) : exn + value :=
  match json r with
  | inl reason => inl (Error reason)
  | inr v => inr v
  end.

(** [await response.json().catch(() => fallback)] *)
Definition response_json_catch (r : Response) (fallback : value) : value :=
  match json r with
  | inl _ => fallback
  | inr v => v
  end.

(** [window.confirm(q)] *)
Definition confirm (env : Env) (q : string) : M S bool :=
  fun s w =>
    let answer := confirm_answer env q in
    (Normal answer, s, log (Prompted q answer) w).

(** [notify(text, { type })] and [notify(text)] *)
Definition notify (text : string) (type : option Level) : M S unit :=
  fun s w =>
    (Normal tt, s,
     log (Notified {| note_text := text; note_type := type |}) w).

(** [refresh()] *)
Definition refresh : M S unit :=
  fun s w => (Normal tt, s, log Refreshed w).

(** [console.error(label, error)] *)
Definition console_error (label : string) (e : exn) : M S unit :=
  fun s w => (Normal tt, s, log (ConsoleError (label ++ " " ++ message e)) w).

(** [document.getElementById(id)], as the truth value the code tests. *)
Definition getElementById (id : string) : M S bool :=
  fun s w =>
    (Normal (match dom_value w id with Some _ => true | None => false end), s, w).

(** [document.getElementById(id).value = v] *)
Definition set_input_value (id v : string) : M S unit :=
  fun s w => (Normal tt, s, write_input id v w).

(** [s || fallback] on strings. *)
Definition str_or (s fallback : string) : string :=
  if nonempty s then s else fallback.

End Primitives.

Arguments notify {RT S} text type.
Arguments refresh {RT S}.
Arguments console_error {RT S} label e.
Arguments getElementById {RT S} id.
Arguments set_input_value {RT S} id v.
Arguments fetch {RT S} env req.
Arguments confirm {RT S} env q.

(** ** [LessonEdit.js] *)

(** [LessonFileUpload]: [record] is what [useRecordContext()] gives. *)
Module LessonFileUpload.
Section Component.
Context {RT : Runtime}.
Variable env : Env.
Variable record : value.

(** [useState()] leaves [file] undefined and [handleFileChange] sets it to a
    [File] or to [null]: [None] stands for both. *)
Record State : Type := { file : option File; fileName : string }.

Definition initial : State := {| file := None; fileName := "" |}.

Definition setFile (f : option File) : M State unit :=
  set_state (fun st => {| file := f; fileName := fileName st |}).
Definition setFileName (n : string) : M State unit :=
  set_state (fun st => {| file := file st; fileName := n |}).

(** [e.target.files[0]] is a [File] or undefined. *)
Definition handleFileChange (currentFile : option File) : M State unit :=
  match currentFile with
  | Some f => setFile (Some f) ;; setFileName (file_name f)
  | None => setFile None ;; setFileName ""
  end.

Definition handleFileUpload : M State unit :=
  st <- read_state ;;
  match file st with
  | None => return_                                   (* !file *)
  | Some f =>
    if negb (truthy record) then return_              (* !record *)
    else
      let formData := [("file", f)] in
      try_catch
        (let token := localStorage_getItem_token env in
         if negb (truthy token) then
           notify "Authentication token not found. Please log in." (Some Warning) ;;
           return_
         else
           id <- eval (get_prop record "id") ;;
           response <- fetch env
             {| url := api_base env ++ "/api/lessons/" ++ to_string id ++ "/files";
                method := "POST";
                headers := [("Authorization", "Bearer " ++ to_string token)];
                body := FormData formData |} ;;
           (if negb (ok response) then
              let errorData :=
                response_json_catch response
                  (VObj [("detail", VStr "File upload failed")]) in
              detail <- eval (get_prop errorData "detail") ;;
              throw (new_Error (js_or detail (VStr "File upload failed")))
            else ret tt) ;;
           notify "File uploaded successfully" None ;;
           refresh ;;
           setFile None ;;
           setFileName "" ;;
           present <- getElementById "file-upload-input-styled" ;;
           when present (set_input_value "file-upload-input-styled" ""))
        (fun error =>
           notify ("Error: " ++ str_or (message error) "File upload failed")
                  (Some Warning))
  end.

End Component.
End LessonFileUpload.

(** [EnrollStudentForm] *)
Module EnrollStudentForm.
Section Component.
Context {RT : Runtime}.
Variable env : Env.
Variable record : value.

(** [studentId] starts as [''] and takes [event.target.value]. *)
Record State : Type := { studentId : value }.

Definition initial : State := {| studentId := VStr "" |}.

Definition setStudentId (v : value) : M State unit :=
  set_state (fun _ => {| studentId := v |}).

Definition handleEnroll : M State unit :=
  st <- read_state ;;
  if negb (truthy (studentId st)) || negb (truthy record) then return_
  else
    try_catch
      (let token := localStorage_getItem_token env in
       if negb (truthy token) then
         notify "Authentication token not found. Please log in." (Some Warning) ;;
         return_
       else
         id <- eval (get_prop record "id") ;;
         response <- fetch env
           {| url := api_base env ++ "/api/lessons/" ++ to_string id ++ "/enroll";
              method := "POST";
              headers := [("Content-Type", "application/json");
                          ("Authorization", "Bearer " ++ to_string token)];
              body := JsonText
                        (VObj [("user_id",
                                VNum (parseInt (to_string (studentId st))));
                               ("lesson_id", id)]) |} ;;
         (if negb (ok response) then
            let errorData :=
              response_json_catch response
                (VObj [("detail", VStr "Enrollment failed")]) in
            detail <- eval (get_prop errorData "detail") ;;
            throw (new_Error (js_or detail (VStr "Enrollment failed")))
          else ret tt) ;;
         notify "Student enrolled successfully" None ;;
         refresh ;;
         setStudentId (VStr ""))
      (fun error =>
         notify ("Error: " ++ str_or (message error) "Enrollment failed")
                (Some Warning)).

End Component.
End EnrollStudentForm.

(** [CustomFileDeleteButton]: [record] is the file row; the component keeps no
    state. *)
Module CustomFileDeleteButton.
Section Component.
Context {RT : Runtime}.
Variable env : Env.
Variable record : value.

Definition handleDelete : M unit unit :=
  accepted <- confirm env "Are you sure you want to delete this file?" ;;
  when accepted
    (try_catch
       (let token := localStorage_getItem_token env in
        if negb (truthy token) then
          notify "Authentication token not found. Please log in." (Some Warning) ;;
          return_
        else
          id <- eval (get_prop record "id") ;;
          response <- fetch env
            {| url := api_base env ++ "/api/files/" ++ to_string id;
               method := "DELETE";
               headers := [("Authorization", "Bearer " ++ to_string token)];
               body := NoBody |} ;;
          (if negb (ok response) then
             let errorText := text response in
             throw (new_Error
                      (VStr ("Failed to delete file. Status: "
                             ++ int_to_string (status response)
                             ++ ", Message: " ++ errorText)))
           else ret tt) ;;
          notify "File deleted successfully" (Some Info) ;;
          refresh)
       (fun error =>
          notify ("Error: " ++ str_or (message error) "Deletion failed")
                 (Some Warning))).

End Component.
End CustomFileDeleteButton.

(** The Unenroll button of an enrollment row: [currentLesson] is
    [props.record || useRecordContext()], [enrollmentRecord] the row. *)
Module UnenrollButton.
Section Component.
Context {RT : Runtime}.
Variable env : Env.
Variable currentLesson enrollmentRecord : value.

Definition onClick : M unit unit :=
  missing <- (if negb (truthy currentLesson) then ret true
              else id <- eval (get_prop currentLesson "id") ;;
                   ret (negb (truthy id))) ;;
  if missing : bool then
    notify "Lesson context not found." (Some Warning) ;;
    return_
  else
    user_id <- eval (get_prop enrollmentRecord "user_id") ;;
    accepted <- confirm env
      ("Are you sure you want to unenroll student ID " ++ to_string user_id ++ "?") ;;
    when accepted
      (try_catch
         (let token := localStorage_getItem_token env in
          if negb (truthy token) then
            notify "Authentication token not found. Please log in." (Some Warning) ;;
            return_
          else
            id <- eval (get_prop currentLesson "id") ;;
            user_id <- eval (get_prop enrollmentRecord "user_id") ;;
            response <- fetch env
              {| url := api_base env ++ "/api/lessons/" ++ to_string id ++ "/unenroll";
                 method := "DELETE";
                 headers := [("Content-Type", "application/json");
                             ("Authorization", "Bearer " ++ to_string token)];
                 body := JsonText (VObj [("user_id", user_id); ("lesson_id", id)]) |} ;;
            (if negb (ok response) then
               let errorData :=
                 response_json_catch response
                   (VObj [("detail", VStr "Unenrollment failed")]) in
               detail <- eval (get_prop errorData "detail") ;;
               throw (new_Error (js_or detail (VStr "Unenrollment failed")))
             else ret tt) ;;
            notify "Student unenrolled successfully" None ;;
            refresh)
         (fun error =>
            notify ("Error: " ++ str_or (message error) "Unenrollment failed")
                   (Some Warning))).

End Component.
End UnenrollButton.

(** ** [StudentLessonView.js] *)

(** [lessonId] comes from [useParams()].  Of the component's state only the
    part the attendance handler reads or writes is kept. *)
Module StudentLessonView.
Section Component.
Context {RT : Runtime}.
Variable env : Env.
Variable lessonId : value.

Record State : Type := {
  selectedFile : option File;
  isAttendanceLoading : bool;
  attendanceServerMessage : string;
  attendanceServerMessageType : Level
}.

Definition initial : State :=
  {| selectedFile := None;
     isAttendanceLoading := false;
     attendanceServerMessage := "";
     attendanceServerMessageType := Info |}.

Definition setSelectedFile (f : option File) : M State unit :=
  set_state (fun st =>
    {| selectedFile := f;
       isAttendanceLoading := isAttendanceLoading st;
       attendanceServerMessage := attendanceServerMessage st;
       attendanceServerMessageType := attendanceServerMessageType st |}).
Definition setIsAttendanceLoading (b : bool) : M State unit :=
  set_state (fun st =>
    {| selectedFile := selectedFile st;
       isAttendanceLoading := b;
       attendanceServerMessage := attendanceServerMessage st;
       attendanceServerMessageType := attendanceServerMessageType st |}).
Definition setAttendanceServerMessage (m : string) : M State unit :=
  set_state (fun st =>
    {| selectedFile := selectedFile st;
       isAttendanceLoading := isAttendanceLoading st;
       attendanceServerMessage := m;
       attendanceServerMessageType := attendanceServerMessageType st |}).
Definition setAttendanceServerMessageType (t : Level) : M State unit :=
  set_state (fun st =>
    {| selectedFile := selectedFile st;
       isAttendanceLoading := isAttendanceLoading st;
       attendanceServerMessage := attendanceServerMessage st;
       attendanceServerMessageType := t |}).

Definition handleFileChange (picked : option File) : M State unit :=
  setSelectedFile picked ;;
  setAttendanceServerMessage "".

Definition handleMarkAttendance : M State unit :=
  st <- read_state ;;
  match selectedFile st with
  | None =>
      notify "Please select a file to simulate camera capture." (Some Warning) ;;
      setAttendanceServerMessage "Please select an image file to mark attendance." ;;
      setAttendanceServerMessageType Warning ;;
      return_
  | Some f =>
      setIsAttendanceLoading true ;;
      setAttendanceServerMessage "" ;;
      let formData := [("file", f)] in
      try_finally
        (try_catch
           (let token := localStorage_getItem_token env in
            response <- fetch env
              {| url := api_base env ++ "/api/attendance/" ++ to_string lessonId;
                 method := "POST";
                 headers := [("Authorization", "Bearer " ++ to_string token)];
                 body := FormData formData |} ;;
            responseData <- eval (response_json response) ;;
            (if negb (ok response) then
               detail <- eval (get_prop responseData "detail") ;;
               let errorMessage :=
                 js_or detail
                   (VStr ("HTTP error! Status: " ++ int_to_string (status response))) in
               throw (new_Error errorMessage)
             else ret tt) ;;
            similarity <- eval (get_prop responseData "similarity") ;;
            shown <- eval (call_toFixed similarity 4) ;;
            let successMessage := "Attendance confirmed! Similarity: " ++ shown in
            notify successMessage (Some Success) ;;
            setAttendanceServerMessage successMessage ;;
            setAttendanceServerMessageType Success ;;
            setSelectedFile None ;;
            fileInput <- getElementById "attendance-image-input" ;;
            when fileInput (set_input_value "attendance-image-input" ""))
           (fun error =>
              console_error "Attendance marking error:" error ;;
              let userFriendlyErrorMessage :=
                str_or (message error) "An unknown error occurred." in
              notify ("Attendance Error: " ++ userFriendlyErrorMessage)
                     (Some ErrorLevel) ;;
              setAttendanceServerMessage userFriendlyErrorMessage ;;
              setAttendanceServerMessageType ErrorLevel))
        (setIsAttendanceLoading false)
  end.

End Component.
End StudentLessonView.

(** ** [FaceRegistrationPage.js] *)

Module FaceRegistrationPage.
Section Component.
Context {RT : Runtime}.
Variable env : Env.

(** [serverMessage] is [null], a string, or whatever [responseData.message]
    holds. *)
Record State : Type := {
  selectedFile : option File;
  isLoading : bool;
  serverMessage : value;
  serverMessageType : Level
}.

Definition initial : State :=
  {| selectedFile := None;
     isLoading := false;
     serverMessage := VNull;
     serverMessageType := Info |}.

Definition setSelectedFile (f : option File) : M State unit :=
  set_state (fun st =>
    {| selectedFile := f;
       isLoading := isLoading st;
       serverMessage := serverMessage st;
       serverMessageType := serverMessageType st |}).
Definition setIsLoading (b : bool) : M State unit :=
  set_state (fun st =>
    {| selectedFile := selectedFile st;
       isLoading := b;
       serverMessage := serverMessage st;
       serverMessageType := serverMessageType st |}).
Definition setServerMessage (m : value) : M State unit :=
  set_state (fun st =>
    {| selectedFile := selectedFile st;
       isLoading := isLoading st;
       serverMessage := m;
       serverMessageType := serverMessageType st |}).
Definition setServerMessageType (t : Level) : M State unit :=
  set_state (fun st =>
    {| selectedFile := selectedFile st;
       isLoading := isLoading st;
       serverMessage := serverMessage st;
       serverMessageType := t |}).

Definition handleFileChange (picked : option File) : M State unit :=
  setSelectedFile picked ;;
  setServerMessage VNull.

Definition handleRegisterFace : M State unit :=
  st <- read_state ;;
  match selectedFile st with
  | None =>
      notify "Please select an image file first." (Some Warning) ;;
      setServerMessage (VStr "Please select an image file first.") ;;
      setServerMessageType Warning ;;
      return_
  | Some f =>
      setIsLoading true ;;
      setServerMessage VNull ;;
      let formData := [("file", f)] in
      try_finally
        (try_catch
           (let token := localStorage_getItem_token env in
            (if negb (truthy token) then
               throw (new_Error (VStr "Authentication token not found."))
             else ret tt) ;;
            response <- fetch env
              {| url := api_base env ++ "/api/users/me/register-face";
                 method := "POST";
                 headers := [("Authorization", "Bearer " ++ to_string token)];
                 body := FormData formData |} ;;
            responseData <- eval (response_json response) ;;
            (if negb (ok response) then
               detail <- eval (get_prop responseData "detail") ;;
               throw (new_Error
                        (js_or detail
                           (VStr ("HTTP error! status: "
                                  ++ int_to_string (status response)))))
             else ret tt) ;;
            notify "Face registered successfully!" (Some Success) ;;
            served <- eval (get_prop responseData "message") ;;
            setServerMessage (js_or served (VStr "Face registered successfully!")) ;;
            setServerMessageType Success ;;
            setSelectedFile None ;;
            fileInput <- getElementById "face-image-input" ;;
            when fileInput (set_input_value "face-image-input" ""))
           (fun error =>
              console_error "Face registration error:" error ;;
              notify ("Error: " ++ message error) (Some ErrorLevel) ;;
              setServerMessage
                (VStr (str_or (message error) "An unexpected error occurred.")) ;;
              setServerMessageType ErrorLevel))
        (setIsLoading false)
  end.

End Component.
End FaceRegistrationPage.

(** ** [LessonCreate.js] and [LessonEdit.js]: the validator *)

Section Validators.
Context {RT : Runtime}.

(** [const required = (message = 'Required') => value => value ? undefined : message]:
    the default replaces an [undefined] argument. *)
Definition required (message : value) : value -> value :=
  let message :=
    match message with
    | VUndefined => VStr "Required"
    | given => given
    end in
  fun v => if truthy v then VUndefined else message.

End Validators.

(** ** [App.js]: the role router *)

Module App.
Section Component.
Context {RT : Runtime}.

Inductive Page : Type :=
| Dashboard
| UserList | UserEdit | UserCreate
| AttendanceList
| LessonList | LessonCreate | LessonEdit
| StudentLessonList | StudentLessonView | FaceRegistrationPage.

(** [<Resource name list edit create />] *)
Record Resource : Type := {
  name : string;
  list_page : option Page;
  edit_page : option Page;
  create_page : option Page
}.

(** [<Route path element />]; [guarded] when the element is wrapped in
    [<Authenticated>]. *)
Record Route : Type := {
  path : string;
  element : Page;
  guarded : bool
}.

(** A child of [<Admin>]: a fragment of resources or a [<CustomRoutes>]. *)
Inductive Child : Type :=
| Fragment (resources : list Resource)
| CustomRoutes (routes : list Route).

Inductive Rendered : Type :=
| LoadingPermissions
| Admin (children : list Child).

Record State : Type := { permissions : value; loadingPermissions : bool }.

Definition initial : State :=
  {| permissions := VNull; loadingPermissions := true |}.

(** The imported [authProvider], as the mount effect sees it. *)
Inductive AuthProvider : Type :=
| WithoutGetPermissions
| GetPermissionsResolves (perms : value)
| GetPermissionsRejects.

(** The effect run once after the first render, with its promise settled. *)
Definition mount_effect (auth : AuthProvider) (st : State) : State :=
  match auth with
  | GetPermissionsResolves perms =>
      {| permissions := perms; loadingPermissions := false |}
  | GetPermissionsRejects =>
      {| permissions := VNull; loadingPermissions := false |}
  | WithoutGetPermissions =>
      {| permissions := VStr "teacher"; loadingPermissions := false |}
  end.

Definition teacher_resources : list Resource :=
  [ {| name := "users"; list_page := Some UserList;
       edit_page := Some UserEdit; create_page := Some UserCreate |};
    {| name := "lessons"; list_page := Some LessonList;
       edit_page := Some LessonEdit; create_page := Some LessonCreate |};
    {| name := "attendance"; list_page := Some AttendanceList;
       edit_page := None; create_page := None |};
    {| name := "lessonfiles"; list_page := None;
       edit_page := None; create_page := None |};
    {| name := "studentlessonenrollments"; list_page := None;
       edit_page := None; create_page := None |};
    {| name := "files"; list_page := None;
       edit_page := None; create_page := None |} ].

Definition student_routes : list Route :=
  [ {| path := "/student/lessons"; element := StudentLessonList; guarded := true |};
    {| path := "/student/lessons/:lessonId"; element := StudentLessonView;
       guarded := true |};
    {| path := "/"; element := StudentLessonList; guarded := true |};
    {| path := "/student/register-face"; element := FaceRegistrationPage;
       guarded := true |} ].

Definition fallback_routes : list Route :=
  [ {| path := "/"; element := Dashboard; guarded := false |} ].

(** [{cond && child}] inside JSX. *)
Definition shown (cond : bool) (child : Child) : list Child :=
  if cond then [child] else [].

Definition render (st : State) : Rendered :=
  if loadingPermissions st then LoadingPermissions
  else
    let permissions := permissions st in
    Admin
      (shown (strict_eq_str permissions "teacher") (Fragment teacher_resources)
       ++ shown (strict_eq_str permissions "student") (CustomRoutes student_routes)
       ++ shown (negb (truthy permissions)
                 || (negb (strict_eq_str permissions "teacher")
                     && negb (strict_eq_str permissions "student")))
                (CustomRoutes fallback_routes)).

(** The application once the role is resolved. *)
Definition App (auth : AuthProvider) : Rendered :=
  render (mount_effect auth initial).

End Component.
End App.

(** ** Every action handler *)

Section Handlers.
Context {RT : Runtime}.

(** One click on one of the six action handlers, with the props and the state
    of the render it closes over. *)
Inductive Invocation : Type :=
| UploadLessonFile (record : value) (st : LessonFileUpload.State)
| EnrollStudent (record : value) (st : EnrollStudentForm.State)
| UnenrollStudent (currentLesson enrollmentRecord : value)
| DeleteFile (record : value)
| RegisterFace (st : FaceRegistrationPage.State)
| MarkAttendance (lessonId : value) (st : StudentLessonView.State).

(** The component state of the handler's view. *)
Inductive View : Type :=
| UploadView (st : LessonFileUpload.State)
| EnrollView (st : EnrollStudentForm.State)
| StatelessView
| FaceView (st : FaceRegistrationPage.State)
| AttendanceView (st : StudentLessonView.State).

Definition view_before (inv : Invocation) : View :=
  match inv with
  | UploadLessonFile _ st => UploadView st
  | EnrollStudent _ st => EnrollView st
  | UnenrollStudent _ _ | DeleteFile _ => StatelessView
  | RegisterFace st => FaceView st
  | MarkAttendance _ st => AttendanceView st
  end.

(** A world in which nothing has happened yet. *)
Definition start (dom : string -> option string) : World :=
  {| events := []; dom_value := dom |}.

Record Outcome : Type := {
  result : completion unit;
  view : View;
  world : World
}.

Definition settle {S} (wrap : S -> View) (r : completion unit * S * World)
  : Outcome :=
  let '(c, s, w) := r in {| result := c; view := wrap s; world := w |}.

(** Run the handler of [inv] to completion from [start dom]. *)
Definition invoke (env : Env) (inv : Invocation) (dom : string -> option string)
  : Outcome :=
  match inv with
  | UploadLessonFile record st =>
      settle UploadView
        (LessonFileUpload.handleFileUpload env record st (start dom))
  | EnrollStudent record st =>
      settle EnrollView
        (EnrollStudentForm.handleEnroll env record st (start dom))
  | UnenrollStudent currentLesson enrollmentRecord =>
      settle (fun _ : unit => StatelessView)
        (UnenrollButton.onClick env currentLesson enrollmentRecord tt (start dom))
  | DeleteFile record =>
      settle (fun _ : unit => StatelessView)
        (CustomFileDeleteButton.handleDelete env record tt (start dom))
  | RegisterFace st =>
      settle FaceView
        (FaceRegistrationPage.handleRegisterFace env st (start dom))
  | MarkAttendance lessonId st =>
      settle AttendanceView
        (StudentLessonView.handleMarkAttendance env lessonId st (start dom))
  end.

(** The transient local input of a view: the selected file or the selected
    identifier. *)
Inductive Input : Type :=
| NoInput
| SelectedFile (f : option File)
| SelectedId (v : value).

Definition selected (v : View) : Input :=
  match v with
  | UploadView st => SelectedFile (LessonFileUpload.file st)
  | EnrollView st => SelectedId (EnrollStudentForm.studentId st)
  | StatelessView => NoInput
  | FaceView st => SelectedFile (FaceRegistrationPage.selectedFile st)
  | AttendanceView st => SelectedFile (StudentLessonView.selectedFile st)
  end.

(** [v.key] where the read cannot throw, [undefined] where it would. *)
Definition prop (v : value) (key : string) : value :=
  match get_prop v key with
  | inr x => x
  | inl _ => VUndefined
  end.

(** Neither [null] nor [undefined]: properties can be read. *)
Definition readable (v : value) : bool :=
  match v with
  | VUndefined | VNull => false
  | _ => true
  end.

Definition is_some {A} (o : option A) : bool :=
  match o with Some _ => true | None => false end.

(** The payload of the action is there: a file or an identifier is selected
    and the record the view works on is in context; for the two row buttons,
    the lesson and the row they act on. *)
Definition payload_present (inv : Invocation) : bool :=
  match inv with
  | UploadLessonFile record st =>
      is_some (LessonFileUpload.file st) && truthy record
  | EnrollStudent record st =>
      truthy (EnrollStudentForm.studentId st) && truthy record
  | UnenrollStudent currentLesson enrollmentRecord =>
      truthy currentLesson && truthy (prop currentLesson "id")
      && readable enrollmentRecord
  | DeleteFile record => readable record
  | RegisterFace st => is_some (FaceRegistrationPage.selectedFile st)
  | MarkAttendance _ st => is_some (StudentLessonView.selectedFile st)
  end.

(** The question the two destructive handlers ask. *)
Definition confirmation_prompt (inv : Invocation) : option string :=
  match inv with
  | UnenrollStudent _ enrollmentRecord =>
      Some ("Are you sure you want to unenroll student ID "
            ++ to_string (prop enrollmentRecord "user_id") ++ "?")
  | DeleteFile _ => Some "Are you sure you want to delete this file?"
  | _ => None
  end.

(** The user accepts the question, if one is asked. *)
Definition confirmation_accepted (env : Env) (inv : Invocation) : bool :=
  match confirmation_prompt inv with
  | Some q => confirm_answer env q
  | None => true
  end.

(** What a file input holds after the handler reset it. *)
Definition reset_picker (dom : string -> option string) (id : string)
  : string -> option string :=
  fun i =>
    if String.eqb i id
    then match dom id with Some _ => Some EmptyString | None => None end
    else dom i.

(** The server answers every request with [r]. *)
Definition answers (env : Env) (r : Response) : Prop :=
  forall req, network env req = Resolved r.

(** The server fails every request: the network rejects it or the status is
    not 2xx. *)
Definition fails (env : Env) : Prop :=
  forall req,
    match network env req with
    | Rejected _ => True
    | Resolved r => ok r = false
    end.

(** A session credential the code accepts: a stored, non-empty token. *)
Definition credential_present (env : Env) : bool :=
  truthy (localStorage_getItem_token env).

(** The two handlers that ask [window.confirm] first. *)
Definition destructive (inv : Invocation) : bool :=
  match inv with
  | UnenrollStudent _ _ | DeleteFile _ => true
  | _ => false
  end.

(** [sub] occurs in [s]. *)
Fixpoint contains (sub s : string) : bool :=
  String.prefix sub s
  || match s with
     | EmptyString => false
     | String _ rest => contains sub rest
     end.

(** The handlers that test the credential before they call [fetch]. *)
Definition credential_checked (inv : Invocation) : bool :=
  match inv with
  | MarkAttendance _ _ => false
  | _ => true
  end.

(** The level at which a missing credential is reported. *)
Definition credential_level (inv : Invocation) : Level :=
  match inv with
  | RegisterFace _ => ErrorLevel
  | _ => Warning
  end.


(** Every [Fetched] in the trace comes after a [Prompted] that was accepted
    ([accepted] tells whether one came before the trace). *)
Fixpoint fetches_confirmed (accepted : bool) (trace : list Event) : bool :=
  match trace with
  | [] => true
  | Prompted _ answer :: rest => fetches_confirmed (accepted || answer) rest
  | Fetched _ :: rest => accepted && fetches_confirmed accepted rest
  | _ :: rest => fetches_confirmed accepted rest
  end.

End Handlers.

(** ** More of the engine: comparisons *)

(** [===] and [>] against the literal [0], which the list views apply to a
    [length]. *)
Class Comparisons (RT : Runtime) : Type := {
  (** [n === 0] on a number. *)
  num_is_zero : number -> bool;
  (** [v > 0] on any value, with the engine's coercion of [v] to a number. *)
  gt_zero : value -> bool
}.

Section Lengths.
Context {RT : Runtime} {CMP : Comparisons RT}.

(** Sequencing of expressions that may throw. *)
Definition and_then {A B} (r : exn + A) (k : A -> exn + B) : exn + B :=
  match r with
  | inl e => inl e
  | inr a => k a
  end.

(** [v.length === 0]: arrays and strings have their own length, an object
    the value stored under that key, the other primitives none. *)
Definition length_is_zero (v : value) : exn + bool :=
  match v with
  | VUndefined => inl (Error (undefined_read_message "length"))
  | VNull => inl (Error (null_read_message "length"))
  | VArr items => inr (match items with [] => true | _ => false end)
  | VStr s => inr (negb (nonempty s))
  | VObj fields =>
      inr (match lookup "length" fields with
           | Some (VNum n) => num_is_zero n
           | _ => false
           end)
  | VBool _ | VNum _ => inr false
  end.

(** [v.length > 0] *)
Definition length_is_positive (v : value) : exn + bool :=
  match v with
  | VUndefined => inl (Error (undefined_read_message "length"))
  | VNull => inl (Error (null_read_message "length"))
  | VArr items => inr (match items with [] => false | _ => true end)
  | VStr s => inr (nonempty s)
  | VObj fields =>
      inr (gt_zero (match lookup "length" fields with
                    | Some x => x
                    | None => VUndefined
                    end))
  | VBool _ | VNum _ => inr (gt_zero VUndefined)
  end.

(** [Array.prototype.map] with a callback that may throw. *)
Fixpoint map_items {A} (f : value -> exn + A) (items : list value)
  : exn + list A :=
  match items with
  | [] => inr []
  | x :: rest =>
      and_then (f x) (fun y =>
      and_then (map_items f rest) (fun ys => inr (y :: ys)))
  end.

(** [v.map(f)]: only arrays have the method, and a JSON value stored under
    the key [map] of an object is never a function.  [callee] is the text of
    the call for the engine's message. *)
Definition call_map {A} (callee : string) (v : value) (f : value -> exn + A)
  : exn + list A :=
  match v with
  | VArr items => map_items f items
  | VUndefined => inl (Error (undefined_read_message "map"))
  | VNull => inl (Error (null_read_message "map"))
  | VBool _ | VNum _ | VStr _ | VObj _ =>
      inl (Error (not_a_function_message callee))
  end.

End Lengths.

(** ** [LessonEdit.js]: the Download button and the disabled buttons *)

Module DownloadButton.
Section Component.
Context {RT : Runtime}.
Variable env : Env.

(** What a click does outside the page. *)
Inductive Effect : Type :=
| ConsoleWarn (line : string)
| WindowOpen (address target : string).

(** The [onClick] of the Download button of a file row [record]. *)
Definition onClick (record : value) : exn + list Effect :=
  let token := localStorage_getItem_token env in
  if negb (truthy token) then
    inr [ConsoleWarn "Authentication token not found. Please log in."]
  else
    and_then (get_prop record "id") (fun id =>
    inr [WindowOpen
           (api_base env ++ "/api/files/" ++ to_string id
            ++ "/download?token=" ++ to_string token)
           "_blank"]).

End Component.
End DownloadButton.

(** The [disabled] attribute of the submit buttons of the lesson editor and
    of the face registration page. *)
Module Buttons.
Section Component.
Context {RT : Runtime}.

(** [disabled={!file}] *)
Definition upload_disabled (st : LessonFileUpload.State) : bool :=
  negb (is_some (LessonFileUpload.file st)).

(** [disabled={!studentId}] *)
Definition enroll_disabled (st : EnrollStudentForm.State) : bool :=
  negb (truthy (EnrollStudentForm.studentId st)).

(** [disabled={isLoading || !selectedFile}] *)
Definition register_disabled (st : FaceRegistrationPage.State) : bool :=
  FaceRegistrationPage.isLoading st
  || negb (is_some (FaceRegistrationPage.selectedFile st)).

End Component.
End Buttons.

(** ** [StudentLessonList.js] *)

Module StudentLessonList.
Section Component.
Context {RT : Runtime} {CMP : Comparisons RT}.
Variable env : Env.

(** [error] is undefined until [setError(e)]. *)
Record State : Type := {
  lessons : value;
  loading : bool;
  error : option exn
}.

Definition initial : State :=
  {| lessons := VArr []; loading := true; error := None |}.

Definition setLessons (v : value) : M State unit :=
  set_state (fun st =>
    {| lessons := v; loading := loading st; error := error st |}).
Definition setLoading (b : bool) : M State unit :=
  set_state (fun st =>
    {| lessons := lessons st; loading := b; error := error st |}).
Definition setError (e : exn) : M State unit :=
  set_state (fun st =>
    {| lessons := lessons st; loading := loading st; error := Some e |}).

(** The mount effect; [fetch] is called without a method, which means GET. *)
Definition fetchLessons : M State unit :=
  try_finally
    (try_catch
       (let token := localStorage_getItem_token env in
        response <- fetch env
          {| url := api_base env ++ "/api/student/lessons";
             method := "GET";
             headers := [("Authorization", "Bearer " ++ to_string token)];
             body := NoBody |} ;;
        (if negb (ok response) then
           let errorData :=
             response_json_catch response
               (VObj [("detail", VStr "Failed to fetch lessons")]) in
           detail <- eval (get_prop errorData "detail") ;;
           throw (new_Error (js_or detail (VStr "Failed to fetch lessons")))
         else ret tt) ;;
        data <- eval (response_json response) ;;
        setLessons data)
       (fun e => setError e))
    (setLoading false).

(** One [<ListItem component={Link}>] of the list. *)
Record LessonLink : Type := {
  link_key : value;
  link_to : string;
  link_primary : value;
  link_secondary : value
}.

Inductive Screen : Type :=
| LoadingScreen
| ErrorScreen (title message : string)
| NotEnrolled
| EnrolledLessons (links : list LessonLink).

(** The callback of [lessons.map]. *)
Definition lesson_link (lesson : value) : exn + LessonLink :=
  and_then (get_prop lesson "id") (fun key =>
  and_then (get_prop lesson "id") (fun id =>
  and_then (get_prop lesson "title") (fun title =>
  and_then (get_prop lesson "description") (fun description =>
  inr {| link_key := key;
         link_to := "/student/lessons/" ++ to_string id;
         link_primary := title;
         link_secondary := description |})))).

(** What the component returns; it throws when [lessons] is not a list. *)
Definition render (st : State) : exn + Screen :=
  if loading st then inr LoadingScreen
  else
    match error st with
    | Some e => inr (ErrorScreen "Error fetching lessons" (message e))
    | None =>
        let lessons := lessons st in
        and_then (if negb (truthy lessons) then inr true
                  else length_is_zero lessons) (fun empty =>
        if empty : bool then inr NotEnrolled
        else
          and_then (call_map "lessons.map" lessons lesson_link) (fun links =>
          inr (EnrolledLessons links)))
    end.

End Component.
End StudentLessonList.

(** ** [StudentLessonView.js]: loading the lesson and listing its files *)

Module StudentLessonDetails.
Section Component.
Context {RT : Runtime} {CMP : Comparisons RT}.
Variable env : Env.
Variable lessonId : value.

(** The three state cells of [StudentLessonView] that the mount effect
    writes. *)
Record State : Type := {
  lesson : value;
  loading : bool;
  error : option exn
}.

Definition initial : State :=
  {| lesson := VNull; loading := true; error := None |}.

Definition setLesson (v : value) : M State unit :=
  set_state (fun st =>
    {| lesson := v; loading := loading st; error := error st |}).
Definition setLoading (b : bool) : M State unit :=
  set_state (fun st =>
    {| lesson := lesson st; loading := b; error := error st |}).
Definition setError (e : exn) : M State unit :=
  set_state (fun st =>
    {| lesson := lesson st; loading := loading st; error := Some e |}).

Definition fetchLessonDetails : M State unit :=
  try_finally
    (try_catch
       (let token := localStorage_getItem_token env in
        response <- fetch env
          {| url := api_base env ++ "/api/lessons/" ++ to_string lessonId;
             method := "GET";
             headers := [("Authorization", "Bearer " ++ to_string token)];
             body := NoBody |} ;;
        (if negb (ok response) then
           let errorData :=
             response_json_catch response
               (VObj [("detail", VStr "Failed to fetch lesson details")]) in
           detail <- eval (get_prop errorData "detail") ;;
           throw (new_Error
                    (js_or detail (VStr "Failed to fetch lesson details")))
         else ret tt) ;;
        data <- eval (response_json response) ;;
        setLesson data)
       (fun e => setError e))
    (setLoading false).

(** One [<ListItem component="a">] of the files list. *)
Record FileLink : Type := {
  file_key : value;
  href : string;
  file_primary : value
}.

Inductive FilesSection : Type :=
| NoFiles
| FileLinks (links : list FileLink).

(** The callback of [lesson.files.map]. *)
Definition file_link (file : value) : exn + FileLink :=
  and_then (get_prop file "id") (fun key =>
  and_then (get_prop file "id") (fun id =>
  and_then (get_prop file "filename") (fun filename =>
  inr {| file_key := key;
         href := api_base env ++ "/api/files/" ++ to_string id
                 ++ "/download?token="
                 ++ to_string (localStorage_getItem_token env);
         file_primary := filename |}))).

(** [lesson.files && lesson.files.length > 0 ? <List>...</List> : ...] *)
Definition files_section (lesson : value) : exn + FilesSection :=
  and_then (get_prop lesson "files") (fun files =>
  and_then (if truthy files then length_is_positive files else inr false)
           (fun some =>
  if some : bool then
    and_then (call_map "lesson.files.map" files file_link) (fun links =>
    inr (FileLinks links))
  else inr NoFiles)).

End Component.
End StudentLessonDetails.

(** ** [StudentLessonView.js]: what the component returns *)

(** What the engine says of an identifier that no import or declaration
    binds. *)
Class References (RT : Runtime) : Type := {
  (** Message of the [ReferenceError] raised by evaluating [name]. *)
  not_defined_message : string -> string
}.

(** The component function of [StudentLessonView], over its six state cells:
    the element it returns, or what it throws while building it.  What React
    does with the element afterwards is not part of it. *)
Module StudentLessonPage.
Section Component.
Context {RT : Runtime} {CMP : Comparisons RT} {REF : References RT}.
Variable env : Env.

(** The Mark Attendance panel: the name of the chosen file when there is
    one, and the submit button. *)
Record Panel : Type := {
  chosen_name : option string;
  submit_disabled : bool;
  submit_busy : bool
}.

Record Page : Type := {
  page_title : value;
  page_description : value;
  page_files : StudentLessonDetails.FilesSection;
  page_panel : Panel
}.

Inductive Screen : Type :=
| LoadingScreen
| ErrorScreen (title message : string)
| LessonNotFound
| LessonPage (page : Page).

(** [{attendanceServerMessage && (<Alert ...>)}]: the module imports no
    [Alert], so building the element throws. *)
Definition alert (text : string) : exn + unit :=
  if nonempty text then inl (Error (not_defined_message "Alert"))
  else inr tt.

Definition render (details : StudentLessonDetails.State)
  (st : StudentLessonView.State) : exn + Screen :=
  if StudentLessonDetails.loading details then inr LoadingScreen
  else
    match StudentLessonDetails.error details with
    | Some e => inr (ErrorScreen "Error fetching lesson" (message e))
    | None =>
        let lesson := StudentLessonDetails.lesson details in
        if negb (truthy lesson) then inr LessonNotFound
        else
          and_then (get_prop lesson "title") (fun title =>
          and_then (get_prop lesson "description") (fun description =>
          and_then (StudentLessonDetails.files_section env lesson) (fun files =>
          and_then (alert (StudentLessonView.attendanceServerMessage st))
                   (fun _ =>
          inr (LessonPage
                 {| page_title := title;
                    page_description :=
                      js_or description (VStr "No description available.");
                    page_files := files;
                    page_panel :=
                      {| chosen_name :=
                           option_map file_name
                             (StudentLessonView.selectedFile st);
                         submit_disabled :=
                           StudentLessonView.isAttendanceLoading st
                           || negb (is_some (StudentLessonView.selectedFile st));
                         submit_busy :=
                           StudentLessonView.isAttendanceLoading st |} |})))))
    end.

End Component.
End StudentLessonPage.

(** ** The script of the static attendance page *)

Module MarkPage.
Section Script.
Context {RT : Runtime}.

(** [s.split(sep)] for a one-character separator: never empty. *)
Fixpoint split (sep : Ascii.ascii) (s : string) : list string :=
  match s with
  | EmptyString => [EmptyString]
  | String c rest =>
      if Ascii.eqb c sep then EmptyString :: split sep rest
      else
        match split sep rest with
        | [] => [String c EmptyString]
        | segment :: segments => String c segment :: segments
        end
  end.

(** [segments.pop()], as the value it returns. *)
Definition pop (segments : list string) : value :=
  match segments with
  | [] => VUndefined
  | _ :: _ => VStr (last segments EmptyString)
  end.

(** The button, the status line, the video and the canvas of the page, and
    whether the camera stream has a live track. *)
Record Page : Type := {
  btn_text : string;
  status_text : string;
  video_hidden : bool;
  video_source : bool;
  canvas_width : Z;
  canvas_height : Z;
  camera_on : bool
}.

(** A value of a form field: [append] stores a [Blob] as it is and prints
    anything else. *)
Inductive FormValue : Type :=
| BlobValue (blob : File)
| TextValue (printed : string).

(** The arguments of the script's [fetch]. *)
Record Upload : Type := {
  upload_url : string;
  upload_method : string;
  upload_headers : list (string * string);
  upload_form : list (string * FormValue)
}.

Inductive Media : Type :=
| Granted
| Denied (reason : string).

(** What the browser and the server decide: [getUserMedia], the size of the
    video frame, what [canvas.toBlob] hands over (a [Blob] or [null]),
    [location.pathname], and the answer to the request. *)
Record Browser : Type := {
  media : Media;
  videoWidth : Z;
  videoHeight : Z;
  snapshot : option File;
  pathname : string;
  server : Upload -> FetchResult
}.

(** The page after the listener and its timer callback ran as far as they
    get, the requests sent, and the rejection nobody handles. *)
Record Run : Type := {
  page : Page;
  uploads : list Upload;
  unhandled : option exn
}.

(** The callback given to [setTimeout]. *)
Definition on_timer (b : Browser) (p : Page) : Run :=
  let sized :=
    {| btn_text := btn_text p;
       status_text := status_text p;
       video_hidden := video_hidden p;
       video_source := video_source p;
       canvas_width := videoWidth b;
       canvas_height := videoHeight b;
       camera_on := camera_on p |} in
  let form :=
    [("file", match snapshot b with
              | Some blob => BlobValue blob
              | None => TextValue "null"
              end)] in
  let lessonId := pop (split "/"%char (pathname b)) in
  let request :=
    {| upload_url := "/api/attendance/" ++ to_string lessonId;
       upload_method := "POST";
       upload_headers := [];
       upload_form := form |} in
  match server b request with
  | Rejected reason =>
      {| page := sized; uploads := [request]; unhandled := Some (Error reason) |}
  | Resolved res =>
      match
        and_then (response_json res) (fun data =>
        if ok res then inr "✅ Отмечено!"
        else and_then (get_prop data "detail") (fun detail =>
             inr ("❌ " ++ to_string detail)))
      with
      | inl e => {| page := sized; uploads := [request]; unhandled := Some e |}
      | inr line =>
          {| page :=
               {| btn_text := "Отметить присутствие";
                  status_text := line;
                  video_hidden := true;
                  video_source := video_source sized;
                  canvas_width := canvas_width sized;
                  canvas_height := canvas_height sized;
                  camera_on := false |};
             uploads := [request];
             unhandled := None |}
      end
  end.

(** The click listener up to [setTimeout]: [None] when [getUserMedia]
    rejects and the listener stops there. *)
Definition on_click (b : Browser) (p : Page) : Page * option exn :=
  let cleared :=
    {| btn_text := btn_text p;
       status_text := "";
       video_hidden := video_hidden p;
       video_source := video_source p;
       canvas_width := canvas_width p;
       canvas_height := canvas_height p;
       camera_on := camera_on p |} in
  match media b with
  | Denied reason => (cleared, Some (Error reason))
  | Granted =>
      ({| btn_text := "Делаем снимок...";
          status_text := "";
          video_hidden := false;
          video_source := true;
          canvas_width := canvas_width p;
          canvas_height := canvas_height p;
          camera_on := true |}, None)
  end.

(** One click and, a second later, its timer. *)
Definition click (b : Browser) (p : Page) : Run :=
  match on_click b p with
  | (stopped, Some e) =>
      {| page := stopped; uploads := []; unhandled := Some e |}
  | (recording, None) => on_timer b recording
  end.

(** The page as loaded: idle, with the video hidden. *)
Definition idle (label : string) : Page :=
  {| btn_text := label;
     status_text := "";
     video_hidden := true;
     video_source := false;
     canvas_width := 300;
     canvas_height := 150;
     camera_on := false |}.

End Script.
End MarkPage.

(** What the list and the files section show for one item that can be read. *)
Section Shown.
Context {RT : Runtime}.

Definition lesson_link_of (lesson : value) : StudentLessonList.LessonLink :=
  {| StudentLessonList.link_key := prop lesson "id";
     StudentLessonList.link_to :=
       "/student/lessons/" ++ to_string (prop lesson "id");
     StudentLessonList.link_primary := prop lesson "title";
     StudentLessonList.link_secondary := prop lesson "description" |}.

Definition file_link_of (env : Env) (file : value)
  : StudentLessonDetails.FileLink :=
  {| StudentLessonDetails.file_key := prop file "id";
     StudentLessonDetails.href :=
       api_base env ++ "/api/files/" ++ to_string (prop file "id")
       ++ "/download?token=" ++ to_string (localStorage_getItem_token env);
     StudentLessonDetails.file_primary := prop file "filename" |}.

(** The file name shown beside the Choose File button is that of the
    selected file. *)
Definition named (st : LessonFileUpload.State) : Prop :=
  LessonFileUpload.fileName st
  = match LessonFileUpload.file st with
    | Some f => file_name f
    | None => EmptyString
    end.

(** The number a confirmed attendance reports: the answer is 2xx and its
    JSON body has a numeric [similarity]. *)
Definition confirmed_similarity (answer : FetchResult) : option number :=
  match answer with
  | Rejected _ => None
  | Resolved r =>
      if ok r then
        match json r with
        | inl _ => None
        | inr v =>
            match get_prop v "similarity" with
            | inr (VNum similarity) => Some similarity
            | _ => None
            end
        end
      else None
  end.

End Shown.

(** The list page once its mount effect has run on a fresh state. *)
Section Mounted.
Context {RT : Runtime} {CMP : Comparisons RT}.

Definition lessons_after_mount (env : Env) (dom : string -> option string)
  : exn + StudentLessonList.Screen :=
  StudentLessonList.render
    (snd (fst (StudentLessonList.fetchLessons env StudentLessonList.initial
                 (start dom)))).

End Mounted.

Section MountedPage.
Context {RT : Runtime} {CMP : Comparisons RT} {REF : References RT}.

(** What a fresh lesson page returns once its mount effect has run. *)
Definition lesson_page_after_mount (env : Env) (lessonId : value)
  (dom : string -> option string) : exn + StudentLessonPage.Screen :=
  StudentLessonPage.render env
    (snd (fst (StudentLessonDetails.fetchLessonDetails env lessonId
                 StudentLessonDetails.initial (start dom))))
    StudentLessonView.initial.

(** The lesson page for a lesson that can be read, with its files section
    built and no message to show. *)
Definition lesson_page_of (lesson : value)
  (files : StudentLessonDetails.FilesSection) (st : StudentLessonView.State)
  : StudentLessonPage.Screen :=
  StudentLessonPage.LessonPage
    {| StudentLessonPage.page_title := prop lesson "title";
       StudentLessonPage.page_description :=
         js_or (prop lesson "description") (VStr "No description available.");
       StudentLessonPage.page_files := files;
       StudentLessonPage.page_panel :=
         {| StudentLessonPage.chosen_name :=
              option_map file_name (StudentLessonView.selectedFile st);
            StudentLessonPage.submit_disabled :=
              StudentLessonView.isAttendanceLoading st
              || negb (is_some (StudentLessonView.selectedFile st));
            StudentLessonPage.submit_busy :=
              StudentLessonView.isAttendanceLoading st |} |}.

End MountedPage.

(** ** A runtime to run the handlers on concrete inputs *)

(** Numbers are the integers; [NaN] is not represented and [parseInt] gives
    [0] for it. *)
Definition integer_runtime : Runtime :=
  {| number := Z;
     num_truthy := fun z => negb (z =? 0)%Z;
     num_to_string := int_to_string;
     toFixed := fun z digits =>
       int_to_string z
       ++ (if Nat.eqb digits 0 then "" else ".")
       ++ String.concat "" (repeat "0" digits);
     parseInt := fun s =>
       match NilZero.int_of_string s with
       | Some i => Z.of_int i
       | None => 0%Z
       end;
     null_read_message := fun p =>
       "Cannot read properties of null (reading '" ++ p ++ "')";
     undefined_read_message := fun p =>
       "Cannot read properties of undefined (reading '" ++ p ++ "')";
     not_a_function_message := fun p => p ++ " is not a function" |}.

(** Inputs on which the handlers are run below. *)
Module Sample.

Definition num (z : Z) : @value integer_runtime := @VNum integer_runtime z.

Definition face : File := {| file_name := "face.png"; file_bytes := "PNG" |}.

Definition lesson : @value integer_runtime := VObj [("id", num 7)].

Definition row : @value integer_runtime :=
  VObj [("id", num 3); ("user_id", num 5)].

Definition env (token : option string) (answer : bool)
  (reply : @FetchResult integer_runtime) : @Env integer_runtime :=
  {| REACT_APP_API_URL := None;
     stored_token := token;
     confirm_answer := fun _ => answer;
     network := fun _ => reply |}.

Definition reply (code : Z) (parsed : string + @value integer_runtime)
  (raw : string) : @Response integer_runtime :=
  {| status := code; json := parsed; text := raw |}.

(** A page without file inputs, and one that has them all. *)
Definition no_inputs : string -> option string := fun _ => None.
Definition inputs : string -> option string := fun _ => Some "C:/fakepath/face.png".

Definition upload_ready : @LessonFileUpload.State :=
  {| LessonFileUpload.file := Some face; LessonFileUpload.fileName := "face.png" |}.

Definition enroll_ready : @EnrollStudentForm.State integer_runtime :=
  {| EnrollStudentForm.studentId := num 5 |}.

Definition face_ready : @FaceRegistrationPage.State integer_runtime :=
  {| FaceRegistrationPage.selectedFile := Some face;
     FaceRegistrationPage.isLoading := false;
     FaceRegistrationPage.serverMessage := VNull;
     FaceRegistrationPage.serverMessageType := Info |}.

Definition attendance_ready : StudentLessonView.State :=
  {| StudentLessonView.selectedFile := Some face;
     StudentLessonView.isAttendanceLoading := false;
     StudentLessonView.attendanceServerMessage := "";
     StudentLessonView.attendanceServerMessageType := Info |}.

(** The server is down. *)
Definition offline : @Env integer_runtime :=
  env (Some "tok") true (Rejected "Failed to fetch").

(** A server that answers every request with [r]. *)
Definition server (token : option string) (r : @Response integer_runtime)
  : @Env integer_runtime :=
  env token true (Resolved r).

Definition similar : @Response integer_runtime :=
  reply 200 (inr (VObj [("similarity", num 1)])) "".


Definition done : @Response integer_runtime :=
  reply 200 (inr (VObj [("message", VStr "ok")])) "".

(** Nobody is signed in. *)
Definition signed_out : @Env integer_runtime :=
  env None true (Rejected "unused").

End Sample.

(** More inputs: the engine's comparisons on the integers, a lesson list, a
    lesson with files, and a visit of the static attendance page. *)
Module Cases.

Definition comparisons : Comparisons integer_runtime :=
  @Build_Comparisons integer_runtime
    (fun z : Z => (z =? 0)%Z)
    (fun v : @value integer_runtime =>
       match v with
       | VNum z => (0 <? z)%Z
       | VBool b => b
       | _ => false
       end).

Definition references : References integer_runtime :=
  @Build_References integer_runtime (fun name => name ++ " is not defined").

Definition algebra : @value integer_runtime :=
  VObj [("id", Sample.num 1); ("title", VStr "Algebra");
        ("description", VStr "Groups and rings")].

Definition logic : @value integer_runtime :=
  VObj [("id", Sample.num 2); ("title", VStr "Logic")].

Definition listing : @Response integer_runtime :=
  Sample.reply 200 (inr (VArr [algebra; logic])) "".

Definition notes : @value integer_runtime :=
  VObj [("id", Sample.num 9); ("filename", VStr "notes.pdf")].

Definition lesson_with_files : @value integer_runtime :=
  VObj [("id", Sample.num 7); ("title", VStr "Algebra");
        ("files", VArr [notes])].

(** The camera is granted and the server accepts the picture. *)
Definition booth (reply : @FetchResult integer_runtime)
  : @MarkPage.Browser integer_runtime :=
  {| MarkPage.media := MarkPage.Granted;
     MarkPage.videoWidth := 640;
     MarkPage.videoHeight := 480;
     MarkPage.snapshot := Some Sample.face;
     MarkPage.pathname := "/lesson/42";
     MarkPage.server := fun _ => reply |}.

(** The camera is refused. *)
Definition refused : @MarkPage.Browser integer_runtime :=
  {| MarkPage.media := MarkPage.Denied "Permission denied";
     MarkPage.videoWidth := 0;
     MarkPage.videoHeight := 0;
     MarkPage.snapshot := None;
     MarkPage.pathname := "/lesson/42";
     MarkPage.server := fun _ => Rejected "unused" |}.

(** A list page that was handed an envelope instead of a list. *)
Definition enveloped : @StudentLessonList.State integer_runtime :=
  {| StudentLessonList.lessons := VObj [("items", VArr [])];
     StudentLessonList.loading := false;
     StudentLessonList.error := None |}.

(** The request that enrolls student 5 in lesson 7. *)
Definition enrollment : @Request integer_runtime :=
  {| url := "http://localhost:8000/api/lessons/7/enroll";
     method := "POST";
     headers := [("Content-Type", "application/json");
                 ("Authorization", "Bearer tok")];
     body := JsonText (VObj [("user_id", Sample.num 5);
                             ("lesson_id", Sample.num 7)]) |}.

(** A lesson page that has loaded the lesson with its one file. *)
Definition shown_lesson : @StudentLessonDetails.State integer_runtime :=
  {| StudentLessonDetails.lesson := lesson_with_files;
     StudentLessonDetails.loading := false;
     StudentLessonDetails.error := None |}.

End Cases.

(** * Proofs *)

(** ** Running a handler symbolically *)

Ltac unfold_handler :=
  cbv [invoke settle
       LessonFileUpload.handleFileUpload LessonFileUpload.setFile
       LessonFileUpload.setFileName
       EnrollStudentForm.handleEnroll EnrollStudentForm.setStudentId
       CustomFileDeleteButton.handleDelete UnenrollButton.onClick
       StudentLessonView.handleMarkAttendance StudentLessonView.setSelectedFile
       StudentLessonView.setIsAttendanceLoading
       StudentLessonView.setAttendanceServerMessage
       StudentLessonView.setAttendanceServerMessageType
       FaceRegistrationPage.handleRegisterFace
       FaceRegistrationPage.setSelectedFile FaceRegistrationPage.setIsLoading
       FaceRegistrationPage.setServerMessage
       FaceRegistrationPage.setServerMessageType
       bind ret return_ throw eval try_catch try_finally when read_state
       set_state notify refresh fetch confirm console_error getElementById
       set_input_value response_json response_json_catch log write_input start
       payload_present confirmation_accepted confirmation_prompt
       credential_present credential_checked is_some andb orb negb
       call_toFixed].

Ltac innermost_scrutinee x :=
  lazymatch x with
  | context [match _ with _ => _ end] => fail
  | _ => idtac
  end.

Ltac tidy :=
  cbv beta iota zeta
      delta [view world result selected view_before dom_value events
             fst snd app is_some andb orb negb].

(** Split on the innermost stuck [match], using a known equation first. *)
Ltac split_match :=
  match goal with
  | H : ?x = _ |- context [match ?x with _ => _ end] => rewrite H
  | |- context [match ?x with _ => _ end] =>
      innermost_scrutinee x; destruct x eqn:?
  end.

Ltac run_handler := unfold_handler; tidy; repeat (split_match; tidy).

(** Compute the logs of a finished run. *)
Ltac observe :=
  cbn [requests notifications refreshes events dom_value flat_map
       filter length app note_text note_type message] in *.

(** Use up membership in a short list and equations between constructors. *)
Ltac unpack :=
  repeat match goal with
         | H : In _ (_ :: _) |- _ => destruct H
         | H : In _ [] |- _ => destruct H
         | H : False |- _ => destruct H
         | H : _ /\ _ |- _ => destruct H
         | H : ?a = ?a |- _ => clear H
         | H : inl _ = inl _ |- _ => injection H as H; try subst
         | H : inr _ = inr _ |- _ => injection H as H; try subst
         | H : Resolved _ = Resolved _ |- _ => injection H as H; try subst
         | H : Some _ = Some _ |- _ => injection H as H; try subst
         | H : ?x = ?y |- _ => is_var x; subst x
         | H : ?x = ?y |- _ => is_var y; subst y
         | H1 : ?t = _, H2 : ?t = _ |- _ => rewrite H1 in H2
         end.

(** ** Facts about values and traces *)

Section Facts.
Context {RT : Runtime}.

Lemma get_prop_readable (v : value) (key : string) :
  readable v = true -> get_prop v key = inr (prop v key).
Proof.
  unfold prop; destruct v; simpl; intros H; try discriminate; reflexivity.
Qed.

Lemma get_prop_detail (fallback : string) :
  get_prop (VObj [("detail", VStr fallback)]) "detail" = inr (VStr fallback).
Proof. reflexivity. Qed.

Lemma truthy_readable (v : value) : truthy v = true -> readable v = true.
Proof. destruct v; simpl; intros H; try discriminate; reflexivity. Qed.





(** When [fetches_confirmed] accepts a trace, an accepted prompt stands
    before each of its requests. *)
Lemma fetches_confirmed_sound (trace : list Event) :
  forall accepted pre req post,
    fetches_confirmed accepted trace = true ->
    trace = (pre ++ Fetched req :: post)%list ->
    accepted = true \/ exists q, In (Prompted q true) pre.
Proof.
  induction trace as [|e trace IH]; intros accepted pre req post Hok Heq.
  - destruct pre; discriminate.
  - destruct pre as [|e' pre]; simpl in Heq; injection Heq as He Htl.
    + subst e. simpl in Hok. apply andb_prop in Hok. left. apply Hok.
    + subst e'. destruct e; simpl in Hok.
      * apply andb_prop in Hok as [Hacc Hok].
        destruct (IH _ _ _ _ Hok Htl) as [H|[q H]]; [left; exact H |].
        right; exists q; right; exact H.
      * destruct (IH _ _ _ _ Hok Htl) as [H|[q' H]]; [left; exact H |].
        right; exists q'; right; exact H.
      * destruct (IH _ _ _ _ Hok Htl) as [H|[q' H]]; [left; exact H |].
        right; exists q'; right; exact H.
      * destruct (IH _ _ _ _ Hok Htl) as [H|[q' H]].
        -- apply orb_prop in H as [H|H]; [left; exact H |].
           subst answer. right; exists q; left; reflexivity.
        -- right; exists q'; right; exact H.
      * destruct (IH _ _ _ _ Hok Htl) as [H|[q' H]]; [left; exact H |].
        right; exists q'; right; exact H.
Qed.

End Facts.

(** Unfold what the hypotheses say about the invocation, read the properties
    of the records they make readable, and move them into the goal so that
    the case analysis of the run keeps them up to date. *)
Ltac read_props :=
  repeat match goal with
         | H : truthy ?v = true |- context [get_prop ?v ?k] =>
             rewrite (@get_prop_readable _ v k (@truthy_readable _ v H))
         | H : readable ?v = true |- context [get_prop ?v ?k] =>
             rewrite (@get_prop_readable _ v k H)
         end.

Ltac assume_ready :=
  cbn [payload_present confirmation_accepted confirmation_prompt
       credential_checked] in *;
  unfold credential_present in *;
  repeat match goal with
         | H : _ && _ = true |- _ => apply andb_prop in H; destruct H
         end;
  unfold_handler; read_props; cbn [get_prop];
  repeat match goal with
         | H : _ = true |- _ => revert H
         | H : _ = false |- _ => revert H
         end.

Ltac use_readable :=
  repeat match goal with
         | Hr : readable ?v = true, H : get_prop ?v ?k = _ |- _ =>
             rewrite (@get_prop_readable _ v k Hr) in H
         end.

Ltac run_ready := assume_ready; tidy; repeat (split_match; tidy); observe; intros.

(** ** The action handlers *)

Section Claims.
Context {RT : Runtime}.

(** C5.  On failure, that is when the network rejects the request or the
    response is not 2xx, every action handler leaves the selected file or
    identifier as it was, and does not touch the file input either. *)
Theorem failure_keeps_input
  (env : Env) (inv : Invocation) (dom : string -> option string) :
  fails env ->
  selected (view (invoke env inv dom)) = selected (view_before inv)
  /\ forall id, dom_value (world (invoke env inv dom)) id = dom id.
Proof.
  intros Hfail.
  destruct inv; unfold_handler; tidy.
  all: repeat (first [ match goal with
                       | |- context [network ?e ?req] =>
                           let Hf := fresh "Hf" in
                           pose proof (Hfail req) as Hf;
                           destruct (network e req) eqn:?;
                           [ | rewrite ?Hf ]
                       end
                     | split_match ];
               tidy).
  all: try discriminate.
  all: split; [cbn; congruence | intros; reflexivity].
Qed.

(** C9.  The delete-file and unenroll handlers issue a request only after a
    confirmation prompt that the user accepted; when the user declines the
    prompt, the prompt is the only thing that happens: no request, no
    notification, no refresh, no change of the page or of the state. *)
Theorem destructive_needs_confirmation
  (env : Env) (inv : Invocation) (dom : string -> option string) :
  destructive inv = true ->
  let out := invoke env inv dom in
  (forall pre req post,
      events (world out) = (pre ++ Fetched req :: post)%list ->
      exists q, In (Prompted q true) pre)
  /\ (forall q,
        In (Prompted q false) (events (world out)) ->
        events (world out) = [Prompted q false]
        /\ requests (world out) = []
        /\ notifications (world out) = []
        /\ refreshes (world out) = 0
        /\ (forall id, dom_value (world out) id = dom id)
        /\ view out = view_before inv).
Proof.
  intros Hd out.
  assert (Hconf : fetches_confirmed false (events (world out)) = true).
  { subst out. destruct inv; try discriminate; run_handler; reflexivity. }
  split.
  - intros pre req post Heq.
    destruct (@fetches_confirmed_sound _ _ _ _ _ _ Hconf Heq) as [H|H];
      [discriminate | exact H].
  - clear Hconf. subst out. intros q.
    destruct inv; try discriminate; run_handler; simpl.
    all: intros Hin.
    all: repeat match goal with
                | H : _ \/ _ |- _ => destruct H
                | H : False |- _ => contradiction
                | H : _ = Prompted _ _ |- _ => inversion H; clear H; subst
                end.
    all: try congruence.
    all: repeat split; reflexivity.
Qed.


(** C8.  The validator returns its message exactly when the value is falsy
    and [undefined] exactly when it is truthy; the message is the argument,
    or ['Required'] when the argument is left out. *)
Theorem required_fails_iff_falsy (message v : value) :
  let shown := match message with VUndefined => VStr "Required" | m => m end in
  (required message v = shown <-> truthy v = false)
  /\ (required message v = VUndefined <-> truthy v = true).
Proof.
  unfold required.
  destruct (truthy v) eqn:Hv; cbv zeta; split; split; intros H;
    try reflexivity; try discriminate.
  all: destruct message; discriminate.
Qed.

(** C10, as the code has it.  Marking attendance with a file selected sends
    one request and ends with the loading flag off.  It reports success,
    with the number shown to four decimals ([toFixed(4)]) and the file
    cleared, exactly when the answer is 2xx and its JSON body has a numeric
    [similarity]; every other outcome of the request (a rejected request, a
    status outside 2xx, a 2xx body that is not JSON or has no numeric
    [similarity]) is reported at error level and keeps the file.  Without a
    file the handler sends nothing and returns before it touches the loading
    flag, which stays as it was. *)
Theorem mark_attendance_outcomes
  (env : Env) (lessonId : value) (st : StudentLessonView.State)
  (dom : string -> option string) :
  let out := invoke env (MarkAttendance lessonId st) dom in
  match StudentLessonView.selectedFile st with
  | None =>
      requests (world out) = []
      /\ exists st',
           view out = AttendanceView st'
           /\ StudentLessonView.isAttendanceLoading st'
              = StudentLessonView.isAttendanceLoading st
  | Some f =>
      let req :=
        {| url := api_base env ++ "/api/attendance/" ++ to_string lessonId;
           method := "POST";
           headers :=
             [("Authorization",
               "Bearer " ++ to_string (localStorage_getItem_token env))];
           body := FormData [("file", f)] |} in
      requests (world out) = [req]
      /\ exists st',
           view out = AttendanceView st'
           /\ StudentLessonView.isAttendanceLoading st' = false
           /\ match confirmed_similarity (network env req) with
              | Some similarity =>
                  notifications (world out)
                  = [{| note_text :=
                          "Attendance confirmed! Similarity: "
                          ++ toFixed similarity 4;
                        note_type := Some Success |}]
                  /\ StudentLessonView.attendanceServerMessageType st'
                     = Success
                  /\ StudentLessonView.selectedFile st' = None
              | None =>
                  (exists reason,
                      notifications (world out)
                      = [{| note_text := "Attendance Error: " ++ reason;
                            note_type := Some ErrorLevel |}])
                  /\ StudentLessonView.attendanceServerMessageType st'
                     = ErrorLevel
                  /\ StudentLessonView.selectedFile st' = Some f
              end
  end.
Proof.
  intros out; subst out. unfold confirmed_similarity.
  run_handler; observe.
  all: cbv zeta; split; [reflexivity |].
  all: eexists; split; [reflexivity |]; cbn; try reflexivity.
  all: repeat match goal with
              | H : ?x = _ |- context [?x] => rewrite H
              end; cbn.
  all: repeat split; try reflexivity; try assumption.
  all: try (eexists; reflexivity).
Qed.

(** C1, as the code has it.  With no usable credential in storage, a handler
    that tests the credential and is otherwise ready to send (payload there,
    confirmation accepted) issues no request and shows one notification that
    mentions authentication: at warning level for upload, enroll, unenroll
    and delete, at error level for face registration. *)
Theorem missing_credential_blocks_request
  (env : Env) (inv : Invocation) (dom : string -> option string) :
  credential_present env = false ->
  credential_checked inv = true ->
  payload_present inv = true ->
  confirmation_accepted env inv = true ->
  let out := invoke env inv dom in
  requests (world out) = []
  /\ exists n,
       notifications (world out) = [n]
       /\ note_type n = Some (credential_level inv)
       /\ contains "Authentication" (note_text n) = true.
Proof.
  intros Hcred Hchecked Hpayload Hconfirm out; subst out.
  destruct inv; try discriminate; run_ready; try discriminate.
  all: try (split; [reflexivity | eexists; repeat split; reflexivity]).
Qed.

(** C2, as the code has it.  When the payload is missing no handler issues a
    request.  Face registration and attendance then show one warning;
    upload and enroll return without any effect; unenroll warns that the
    lesson context is missing when that is the part that is missing. *)
Theorem missing_payload_blocks_request
  (env : Env) (inv : Invocation) (dom : string -> option string) :
  payload_present inv = false ->
  let out := invoke env inv dom in
  requests (world out) = []
  /\ match inv with
     | UploadLessonFile _ _ | EnrollStudent _ _ =>
         events (world out) = [] /\ view out = view_before inv
     | RegisterFace _ =>
         notifications (world out)
         = [{| note_text := "Please select an image file first.";
               note_type := Some Warning |}]
     | MarkAttendance _ _ =>
         notifications (world out)
         = [{| note_text := "Please select a file to simulate camera capture.";
               note_type := Some Warning |}]
     | UnenrollStudent currentLesson _ =>
         truthy currentLesson && truthy (prop currentLesson "id") = false ->
         notifications (world out)
         = [{| note_text := "Lesson context not found.";
               note_type := Some Warning |}]
     | DeleteFile _ => True
     end.
Proof.
  intros Hpayload out; subst out.
  destruct inv as [record st|record st|currentLesson enrollmentRecord
                  |record|st|lessonId st].
  3: { destruct (truthy currentLesson) eqn:Hlesson;
         destruct enrollmentRecord;
         cbn [payload_present readable andb] in Hpayload;
         rewrite ?Hlesson in Hpayload; cbn [andb] in Hpayload;
         run_ready; try discriminate.
       all: repeat split; intros; try discriminate; reflexivity. }
  3: { destruct record; cbn [payload_present readable] in Hpayload;
         try discriminate; run_ready; repeat split. }
  all: run_ready; try discriminate.
  all: repeat split; intros; try discriminate; reflexivity.
Qed.

(** C6, as the code has it.  An invocation issues at most one request,
    whatever the server answers, and exactly one when the payload and the
    credential are there and the user accepts the confirmation prompt of the
    two destructive handlers. *)
Theorem at_most_one_request
  (env : Env) (inv : Invocation) (dom : string -> option string) :
  let out := invoke env inv dom in
  length (requests (world out)) <= 1
  /\ (payload_present inv = true ->
      credential_present env = true ->
      confirmation_accepted env inv = true ->
      length (requests (world out)) = 1).
Proof.
  intros out; subst out.
  split.
  - destruct inv; run_handler; observe; lia.
  - intros Hpayload Hcred Hconfirm.
    destruct inv; run_ready; try discriminate; reflexivity.
Qed.
(** C4, as the code has it.  When the payload and (where it is tested) the
    credential are there, the confirmation is accepted and the request is
    answered with a 2xx status, the request is sent once and: upload, enroll,
    unenroll and delete show their fixed success message (at the default
    level, delete at info level), refresh the list once, and upload and
    enroll clear the selection, upload also the file input; face
    registration, given a JSON body other than [null], and attendance, given
    a JSON body with a numeric [similarity], show a success-level
    notification, clear the selected file and the file input, and refresh
    nothing.  Face registration puts the server's [message], or its fixed
    default, on the page. *)
Theorem success_response_effects
  (env : Env) (inv : Invocation) (dom : string -> option string)
  (r : Response) :
  answers env r -> ok r = true ->
  payload_present inv = true ->
  (credential_checked inv = true -> credential_present env = true) ->
  confirmation_accepted env inv = true ->
  let out := invoke env inv dom in
  length (requests (world out)) = 1
  /\ match inv with
  | UploadLessonFile _ _ =>
      notifications (world out)
      = [{| note_text := "File uploaded successfully"; note_type := None |}]
      /\ refreshes (world out) = 1
      /\ view out
         = UploadView {| LessonFileUpload.file := None;
                         LessonFileUpload.fileName := "" |}
      /\ forall id,
           dom_value (world out) id
           = reset_picker dom "file-upload-input-styled" id
  | EnrollStudent _ _ =>
      notifications (world out)
      = [{| note_text := "Student enrolled successfully"; note_type := None |}]
      /\ refreshes (world out) = 1
      /\ view out = EnrollView {| EnrollStudentForm.studentId := VStr "" |}
  | UnenrollStudent _ _ =>
      notifications (world out)
      = [{| note_text := "Student unenrolled successfully";
            note_type := None |}]
      /\ refreshes (world out) = 1
  | DeleteFile _ =>
      notifications (world out)
      = [{| note_text := "File deleted successfully";
            note_type := Some Info |}]
      /\ refreshes (world out) = 1
  | RegisterFace _ =>
      forall v, json r = inr v -> readable v = true ->
      notifications (world out)
      = [{| note_text := "Face registered successfully!";
            note_type := Some Success |}]
      /\ refreshes (world out) = 0
      /\ view out
         = FaceView
             {| FaceRegistrationPage.selectedFile := None;
                FaceRegistrationPage.isLoading := false;
                FaceRegistrationPage.serverMessage :=
                  js_or (prop v "message") (VStr "Face registered successfully!");
                FaceRegistrationPage.serverMessageType := Success |}
      /\ forall id,
           dom_value (world out) id = reset_picker dom "face-image-input" id
  | MarkAttendance _ _ =>
      forall v similarity,
        json r = inr v ->
        get_prop v "similarity" = inr (VNum similarity) ->
      notifications (world out)
      = [{| note_text :=
              "Attendance confirmed! Similarity: " ++ toFixed similarity 4;
            note_type := Some Success |}]
      /\ refreshes (world out) = 0
      /\ view out
         = AttendanceView
             {| StudentLessonView.selectedFile := None;
                StudentLessonView.isAttendanceLoading := false;
                StudentLessonView.attendanceServerMessage :=
                  "Attendance confirmed! Similarity: " ++ toFixed similarity 4;
                StudentLessonView.attendanceServerMessageType := Success |}
      /\ forall id,
           dom_value (world out) id
           = reset_picker dom "attendance-image-input" id
  end.
Proof.
  intros Hnet Hok Hpayload Hcred Hconfirm out; subst out.
  destruct inv; cbn [credential_checked] in Hcred;
    try specialize (Hcred eq_refl); assume_ready; tidy.
  all: repeat (first [ rewrite Hnet | split_match ]; tidy).
  all: observe; intros; try discriminate.
  all: split; [reflexivity |].
  all: intros; unpack; try discriminate; use_readable; unpack;
       try discriminate.
  all: repeat split; try reflexivity.
  all: intros id; unfold reset_picker;
       match goal with
       | |- context [String.eqb id ?name] =>
           destruct (String.eqb_spec id name); subst
       end;
       repeat match goal with
              | H : ?f ?x = _ |- context [?f ?x] => rewrite H
              end; reflexivity.
Qed.


End Claims.

(** ** The role router *)

Section Router.
Context {RT : Runtime}.

(** C7, as the code has it.  Once the role is resolved the router mounts
    exactly one child: the fragment of the six administrative resources for
    ["teacher"], the four student routes for ["student"], and the one
    fallback route for every other role and when the resolution fails.  The
    student and the fallback routes are different routes, and without
    [getPermissions] the role is taken to be ["teacher"]. *)
Theorem role_router_mounts_one_set :
  (forall perms,
      App.App (App.GetPermissionsResolves perms)
      = App.Admin
          [ if strict_eq_str perms "teacher"
            then App.Fragment App.teacher_resources
            else if strict_eq_str perms "student"
                 then App.CustomRoutes App.student_routes
                 else App.CustomRoutes App.fallback_routes ])
  /\ App.App App.GetPermissionsRejects
     = App.Admin [App.CustomRoutes App.fallback_routes]
  /\ App.App App.WithoutGetPermissions
     = App.Admin [App.Fragment App.teacher_resources]
  /\ length App.teacher_resources = 6
  /\ length App.student_routes = 4
  /\ length App.fallback_routes = 1
  /\ (forall route, In route App.student_routes ->
                    ~ In route App.fallback_routes).
Proof.
  split; [ | repeat split ]; try reflexivity.
  - intros perms. unfold App.App, App.render, App.mount_effect, App.initial.
    cbn [App.loadingPermissions App.permissions].
    destruct perms as [| |b|n|s|items|fields];
      cbn [strict_eq_str truthy negb andb orb App.shown app];
      rewrite ?orb_true_r; try reflexivity.
    destruct (String.eqb_spec s "teacher") as [->|Hteacher];
      [reflexivity |].
    destruct (String.eqb_spec s "student") as [->|Hstudent];
      [reflexivity |].
    cbn [negb andb App.shown app].
    destruct (nonempty s); reflexivity.
  - intros route Hstudent Hfallback.
    cbn in Hstudent, Hfallback.
    destruct Hfallback as [<-|[]].
    repeat (destruct Hstudent as [Hstudent|Hstudent]; [discriminate |]).
    exact Hstudent.
Qed.

End Router.

(** ** The claims on concrete runs *)

Module Runs.
Import Sample.
#[local] Existing Instance integer_runtime.

(** C5 at an upload that the network rejects. *)
Lemma failure_keeps_input_witness :
  fails offline
  /\ selected (view (invoke offline (UploadLessonFile lesson upload_ready) inputs))
     = SelectedFile (Some face).
Proof.
  split.
  - intros req. exact I.
  - apply (@failure_keeps_input integer_runtime offline
             (UploadLessonFile lesson upload_ready) inputs).
    intros req. exact I.
Defined.

(** C9 at a delete that the user declines. *)
Lemma destructive_needs_confirmation_witness :
  destructive (DeleteFile row) = true
  /\ forall pre req post,
       events (world (invoke (env (Some "tok") false (Rejected "unused"))
                             (DeleteFile row) no_inputs))
       = (pre ++ Fetched req :: post)%list ->
       exists q, In (Prompted q true) pre.
Proof.
  split.
  - reflexivity.
  - apply (@destructive_needs_confirmation integer_runtime
             (env (Some "tok") false (Rejected "unused")) (DeleteFile row)
             no_inputs).
    reflexivity.
Defined.

(** C8 at the empty title. *)
Lemma required_fails_iff_falsy_witness :
  truthy (@VStr integer_runtime "") = false
  /\ required VUndefined (@VStr integer_runtime "") = VStr "Required".
Proof.
  split.
  - reflexivity.
  - apply (proj1 (@required_fails_iff_falsy integer_runtime VUndefined (VStr ""))).
    reflexivity.
Defined.

(** C10 at a confirmed attendance. *)
Lemma mark_attendance_outcomes_witness :
  notifications
    (world (invoke (server (Some "tok") similar)
                   (MarkAttendance (VStr "7") attendance_ready) inputs))
  = [{| note_text := "Attendance confirmed! Similarity: 1.0000";
        note_type := Some Success |}].
Proof.
  destruct (@mark_attendance_outcomes integer_runtime
              (server (Some "tok") similar) (VStr "7") attendance_ready inputs)
    as (_ & st' & _ & _ & Hshown & _).
  exact Hshown.
Defined.

(** C1 at a delete without a stored token. *)
Lemma missing_credential_blocks_request_witness :
  credential_present (env None true (Rejected "unused")) = false
  /\ requests (world (invoke (env None true (Rejected "unused"))
                             (DeleteFile row) no_inputs)) = [].
Proof.
  split.
  - reflexivity.
  - apply (@missing_credential_blocks_request integer_runtime
             (env None true (Rejected "unused")) (DeleteFile row) no_inputs);
      reflexivity.
Defined.

(** C2 at a face registration without a file. *)
Lemma missing_payload_blocks_request_witness :
  payload_present (RegisterFace FaceRegistrationPage.initial) = false
  /\ requests (world (invoke offline (RegisterFace FaceRegistrationPage.initial)
                             no_inputs)) = [].
Proof.
  split.
  - reflexivity.
  - apply (@missing_payload_blocks_request integer_runtime offline
             (RegisterFace FaceRegistrationPage.initial) no_inputs).
    reflexivity.
Defined.


(** C4 at an upload that succeeds. *)
Lemma success_response_effects_witness :
  answers (server (Some "tok") done) done
  /\ payload_present (UploadLessonFile lesson upload_ready) = true
  /\ refreshes (world (invoke (server (Some "tok") done)
                              (UploadLessonFile lesson upload_ready) inputs)) = 1.
Proof.
  split; [intros req; reflexivity | split; [reflexivity |]].
  apply (proj2 (@success_response_effects integer_runtime
                  (server (Some "tok") done)
                  (UploadLessonFile lesson upload_ready) inputs done
                  (fun req => eq_refl) eq_refl eq_refl (fun _ => eq_refl)
                  eq_refl)).
Defined.

(** C6 at an enrollment. *)
Lemma at_most_one_request_witness :
  payload_present (EnrollStudent lesson enroll_ready) = true
  /\ length (requests (world (invoke (server (Some "tok") done)
                                     (EnrollStudent lesson enroll_ready)
                                     no_inputs))) = 1.
Proof.
  split.
  - reflexivity.
  - apply (proj2 (@at_most_one_request integer_runtime
                    (server (Some "tok") done)
                    (EnrollStudent lesson enroll_ready) no_inputs));
      reflexivity.
Defined.

(** C7 at the student and fallback routes for the root path. *)
Lemma role_router_mounts_one_set_witness :
  In {| App.path := "/"; App.element := App.StudentLessonList;
        App.guarded := true |} App.student_routes
  /\ ~ In {| App.path := "/"; App.element := App.StudentLessonList;
             App.guarded := true |} App.fallback_routes.
Proof.
  split.
  - cbn. right. right. left. reflexivity.
  - apply (proj2 (proj2 (proj2 (proj2 (proj2 (proj2
             (@role_router_mounts_one_set integer_runtime))))))).
    cbn. right. right. left. reflexivity.
Defined.

End Runs.

(** ** Where the code departs from the stated claims *)

Module Departures.
Import Sample.
#[local] Existing Instance integer_runtime.

(** C1 as stated fails.  Without a stored token, face registration reports
    the missing credential at error level, not as a warning; and an upload
    with no file selected returns before it looks at the credential and shows
    nothing at all. *)
Lemma credential_guard_counterexample :
  stored_token signed_out = None
  /\ notifications (world (invoke signed_out (RegisterFace face_ready) no_inputs))
     = [{| note_text := "Error: Authentication token not found.";
           note_type := Some ErrorLevel |}]
  /\ ~ (exists n,
          In n (notifications
                  (world (invoke signed_out (RegisterFace face_ready) no_inputs)))
          /\ note_type n = Some Warning)
  /\ notifications
       (world (invoke signed_out
                 (UploadLessonFile lesson LessonFileUpload.initial) no_inputs))
     = [].
Proof.
  repeat split.
  intros [n [Hin Hlevel]].
  cbn in Hin. destruct Hin as [<-|[]]. discriminate.
Qed.

(** The attendance handler does not test the credential: without a stored
    token it still sends the request, with the header [Bearer null]. *)
Lemma attendance_sends_without_credential :
  requests (world (invoke signed_out (MarkAttendance (VStr "7") attendance_ready)
                          no_inputs))
  = [{| url := "http://localhost:8000/api/attendance/7";
        method := "POST";
        headers := [("Authorization", "Bearer null")];
        body := FormData [("file", face)] |}].
Proof. reflexivity. Qed.

(** C2 as stated fails.  An upload with no file selected issues no request,
    but it shows no warning either: nothing happens. *)
Lemma missing_payload_counterexample :
  payload_present (UploadLessonFile lesson LessonFileUpload.initial) = false
  /\ events (world (invoke (env (Some "tok") true (Rejected "unused"))
                           (UploadLessonFile lesson LessonFileUpload.initial)
                           no_inputs))
     = [].
Proof. split; reflexivity. Qed.


(** On the student pages a refusal whose body is not JSON is reported with
    the parser's own message. *)
Lemma attendance_reports_parser_message :
  notifications
    (world (invoke (env (Some "tok") true
                        (Resolved (reply 502 (inl "Unexpected token <") "<html>")))
                   (MarkAttendance (VStr "7") attendance_ready) no_inputs))
  = [{| note_text := "Attendance Error: Unexpected token <";
        note_type := Some ErrorLevel |}].
Proof. reflexivity. Qed.

(** C4 as stated fails.  A face registration answered with 200 and
    [{message: "ok"}] succeeds and refreshes nothing. *)
Lemma success_refresh_counterexample :
  let accepted := reply 200 (inr (VObj [("message", VStr "ok")])) "" in
  let out :=
    invoke (env (Some "tok") true (Resolved accepted))
           (RegisterFace face_ready) inputs in
  ok accepted = true
  /\ notifications (world out)
     = [{| note_text := "Face registered successfully!";
           note_type := Some Success |}]
  /\ refreshes (world out) = 0.
Proof. cbv zeta. repeat split. Qed.

(** C6 as stated fails.  A delete with the row and the credential there
    issues no request when the user declines the prompt. *)
Lemma declined_delete_counterexample :
  let declining := env (Some "tok") false (Rejected "unused") in
  payload_present (DeleteFile row) = true
  /\ credential_present declining = true
  /\ requests (world (invoke declining (DeleteFile row) no_inputs)) = [].
Proof. cbv zeta. repeat split. Qed.

(** C7 as stated fails.  For the role ["student"] four routes are mounted,
    not two. *)
Lemma student_routes_counterexample :
  exists routes,
    App.App (App.GetPermissionsResolves (VStr "student"))
    = App.Admin [App.CustomRoutes routes]
    /\ map App.path routes
       = ["/student/lessons"; "/student/lessons/:lessonId"; "/";
          "/student/register-face"]
    /\ length routes <> 2.
Proof.
  exists App.student_routes. repeat split. discriminate.
Qed.

(** C10 as stated fails.  Invoked without a file while the loading flag is
    on, the handler warns, sends nothing and returns before it touches the
    flag: the flag is still on. *)
Lemma loading_flag_counterexample :
  let busy :=
    {| StudentLessonView.selectedFile := None;
       StudentLessonView.isAttendanceLoading := true;
       StudentLessonView.attendanceServerMessage := "";
       StudentLessonView.attendanceServerMessageType := Info |} in
  let out := invoke offline (MarkAttendance (VStr "7") busy) no_inputs in
  events (world out)
  = [Notified {| note_text := "Please select a file to simulate camera capture.";
                 note_type := Some Warning |}]
  /\ view out
     = AttendanceView
         {| StudentLessonView.selectedFile := None;
            StudentLessonView.isAttendanceLoading := true;
            StudentLessonView.attendanceServerMessage :=
              "Please select an image file to mark attendance.";
            StudentLessonView.attendanceServerMessageType := Warning |}.
Proof. cbv zeta. split; reflexivity. Qed.

End Departures.

(** * More of the code *)

(** ** Running the mount effects symbolically *)

Ltac unfold_effect :=
  cbv [StudentLessonList.fetchLessons StudentLessonList.setLessons
       StudentLessonList.setLoading StudentLessonList.setError
       StudentLessonDetails.fetchLessonDetails StudentLessonDetails.setLesson
       StudentLessonDetails.setLoading StudentLessonDetails.setError
       LessonFileUpload.handleFileChange LessonFileUpload.setFile
       LessonFileUpload.setFileName
       bind ret return_ throw eval try_catch try_finally when read_state
       set_state fetch response_json response_json_catch log start].

Ltac run_effect := unfold_effect; tidy; repeat (split_match; tidy).

Section Pages.
Context {RT : Runtime} {CMP : Comparisons RT}.

(** X1.  The file name shown beside the Choose File button always belongs to
    the selected file: picking a file (or none) establishes this, and an
    upload, whatever its outcome, keeps it. *)
Theorem upload_name_follows_file :
  (forall picked st w,
      named (snd (fst (LessonFileUpload.handleFileChange picked st w))))
  /\ (forall env record st dom st',
         named st ->
         view (invoke env (UploadLessonFile record st) dom) = UploadView st' ->
         named st').
Proof.
  split.
  - intros picked st w. destruct picked; reflexivity.
  - intros env record st dom st' Hnamed.
    run_handler; intros Hview; injection Hview as <-;
      first [exact Hnamed | reflexivity].
Qed.

(** X2.  Picking a file and uploading it, with the lesson in context, a
    stored credential and a server that accepts: exactly one request goes
    out, a POST whose form holds the picked file under [file], and the form
    is back in its initial state, with the Upload button disabled. *)
Theorem pick_then_upload
  (env : Env) (record : value) (st : LessonFileUpload.State) (f : File)
  (dom : string -> option string) (r : Response) :
  answers env r -> ok r = true ->
  truthy record = true -> credential_present env = true ->
  let picked :=
    snd (fst (LessonFileUpload.handleFileChange (Some f) st (start dom))) in
  let out := invoke env (UploadLessonFile record picked) dom in
  view out = UploadView LessonFileUpload.initial
  /\ Buttons.upload_disabled LessonFileUpload.initial = true
  /\ exists req,
       requests (world out) = [req]
       /\ method req = "POST"
       /\ body req = FormData [("file", f)].
Proof.
  intros Hnet Hok Hrecord Hcred picked out; subst picked out.
  unfold credential_present in Hcred.
  unfold_handler; unfold_effect; tidy.
  cbn [LessonFileUpload.file LessonFileUpload.fileName].
  rewrite (get_prop_readable record "id" (truthy_readable record Hrecord)).
  repeat (first [ rewrite Hnet | rewrite Hok | rewrite Hrecord | rewrite Hcred
                | split_match ]; tidy); observe.
  all: split; [reflexivity | split; [reflexivity |]].
  all: eexists; repeat split.
Qed.


(** X3.  On the face registration page, whose component builds its element
    without anything that can throw, a click on an enabled submit button
    leaves the page either done or ready for another try: afterwards the
    message is of success or of error level, the loading flag is off, and
    the button is disabled exactly when the message is the success one (the
    file was cleared); after an error the button is enabled again. *)
Theorem register_button_after_attempt
  (env : Env) (dom : string -> option string)
  (st : FaceRegistrationPage.State) :
  Buttons.register_disabled st = false ->
  exists st',
    view (invoke env (RegisterFace st) dom) = FaceView st'
    /\ FaceRegistrationPage.isLoading st' = false
    /\ (FaceRegistrationPage.serverMessageType st' = Success
        /\ Buttons.register_disabled st' = true
        \/ FaceRegistrationPage.serverMessageType st' = ErrorLevel
           /\ Buttons.register_disabled st' = false).
Proof.
  intros Henabled.
  unfold Buttons.register_disabled in Henabled.
  apply orb_false_elim in Henabled as [Hidle Hfile].
  revert Hfile. run_handler; intros Hfile; try discriminate.
  all: eexists; split; [reflexivity |]; cbn; rewrite ?Heqo;
       split; [reflexivity |]; auto.
Qed.

(** X4.  With a stored credential, the Download button of the lesson editor
    opens, in a new tab, exactly the address that the student's file link
    points to for the same file. *)
Theorem download_addresses_agree (env : Env) (file : value) :
  credential_present env = true ->
  readable file = true ->
  exists address link,
    DownloadButton.onClick env file
    = inr [DownloadButton.WindowOpen address "_blank"]
    /\ StudentLessonDetails.file_link env file = inr link
    /\ StudentLessonDetails.href link = address.
Proof.
  intros Hcred Hfile. unfold credential_present in Hcred.
  unfold DownloadButton.onClick, StudentLessonDetails.file_link.
  rewrite Hcred. cbn [negb].
  rewrite !(get_prop_readable file _ Hfile). cbn [and_then].
  do 2 eexists. repeat split.
Qed.

(** X5.  Without a stored credential the two download paths part: the
    editor's button opens nothing and only warns on the console, while the
    student's link is still rendered, with the text [null] as its token. *)
Theorem download_without_credential (env : Env) (file : value) :
  stored_token env = None ->
  readable file = true ->
  DownloadButton.onClick env file
  = inr [DownloadButton.ConsoleWarn
           "Authentication token not found. Please log in."]
  /\ exists link,
       StudentLessonDetails.file_link env file = inr link
       /\ StudentLessonDetails.href link
          = api_base env ++ "/api/files/" ++ to_string (prop file "id")
            ++ "/download?token=null".
Proof.
  intros Htoken Hfile.
  unfold DownloadButton.onClick, StudentLessonDetails.file_link,
    localStorage_getItem_token.
  rewrite Htoken. cbn [truthy negb].
  rewrite !(get_prop_readable file _ Hfile). cbn [and_then].
  split; [reflexivity |]. eexists. split; reflexivity.
Qed.

(** X6.  Loading the lesson list always ends: the effect sends exactly one
    GET request to [/api/student/lessons], with the stored token (or [null])
    as bearer, never rejects, and leaves the loading flag off; it either
    stores an error and keeps the list, or stores the list and keeps the
    error cell. *)
Theorem fetch_lessons_settles
  (env : Env) (st : StudentLessonList.State) (dom : string -> option string) :
  exists st' w',
    StudentLessonList.fetchLessons env st (start dom) = (Normal tt, st', w')
    /\ StudentLessonList.loading st' = false
    /\ events w'
       = [Fetched
            {| url := api_base env ++ "/api/student/lessons";
               method := "GET";
               headers :=
                 [("Authorization",
                   "Bearer " ++ to_string (localStorage_getItem_token env))];
               body := NoBody |}]
    /\ (forall id, dom_value w' id = dom id)
    /\ ((exists e, StudentLessonList.error st' = Some e)
        /\ StudentLessonList.lessons st' = StudentLessonList.lessons st
        \/ StudentLessonList.error st' = StudentLessonList.error st).
Proof.
  run_effect.
  all: do 2 eexists; split; [reflexivity |]; cbn.
  all: repeat split; eauto.
Qed.

Lemma map_items_readable {A} (f : value -> exn + A) (g : value -> A)
  (items : list value) :
  (forall x, readable x = true -> f x = inr (g x)) ->
  (forall x, In x items -> readable x = true) ->
  map_items f items = inr (map g items).
Proof.
  intros Hf Hitems. induction items as [|x items IH]; [reflexivity |].
  cbn [map_items map and_then].
  rewrite (Hf x) by (apply Hitems; left; reflexivity).
  cbn [and_then]. rewrite IH by (intros y Hy; apply Hitems; right; exact Hy).
  reflexivity.
Qed.

Lemma lesson_link_readable (lesson : value) :
  readable lesson = true ->
  StudentLessonList.lesson_link lesson = inr (lesson_link_of lesson).
Proof.
  intros H. unfold StudentLessonList.lesson_link.
  rewrite !(get_prop_readable lesson _ H). reflexivity.
Qed.

Lemma file_link_readable (env : Env) (file : value) :
  readable file = true ->
  StudentLessonDetails.file_link env file = inr (file_link_of env file).
Proof.
  intros H. unfold StudentLessonDetails.file_link.
  rewrite !(get_prop_readable file _ H). reflexivity.
Qed.

(** X7.  When the lesson list cannot be loaded the page shows the error
    screen and never the list: with the network's reason when the request
    is rejected; for a status outside 2xx with the [detail] of a JSON body
    when it is a non-empty string, and with the fixed text when the body is
    not JSON or is JSON other than [null] without [detail]. *)
Theorem lessons_error_screen (env : Env) (dom : string -> option string) :
  (forall reason,
      (forall req, network env req = Rejected reason) ->
      lessons_after_mount env dom
      = inr (StudentLessonList.ErrorScreen "Error fetching lessons" reason))
  /\ (forall r,
        answers env r -> ok r = false ->
        (forall v detail,
            json r = inr v -> get_prop v "detail" = inr (VStr detail) ->
            nonempty detail = true ->
            lessons_after_mount env dom
            = inr (StudentLessonList.ErrorScreen
                     "Error fetching lessons" detail))
        /\ ((forall v, json r = inr v -> get_prop v "detail" = inr VUndefined) ->
            lessons_after_mount env dom
            = inr (StudentLessonList.ErrorScreen
                     "Error fetching lessons" "Failed to fetch lessons"))).
Proof.
  unfold lessons_after_mount. split.
  - intros reason Hnet. unfold_effect; tidy. rewrite Hnet; tidy. reflexivity.
  - intros r Hnet Hok. split.
    + intros v detail Hjson Hdetail Hfull.
      unfold_effect; tidy. rewrite Hnet; tidy. rewrite Hok; tidy.
      rewrite Hjson; tidy. rewrite Hdetail; tidy.
      destruct detail; [discriminate | reflexivity].
    + intros Hno.
      unfold_effect; tidy. rewrite Hnet; tidy. rewrite Hok; tidy.
      destruct (json r) as [reason|v] eqn:Hjson; tidy.
      * rewrite get_prop_detail; tidy. reflexivity.
      * rewrite (Hno v eq_refl); tidy. reflexivity.
Qed.

(** X8.  When the server answers 2xx with a JSON array of lessons (none of
    them [null]), the page shows one link per lesson, in the server's order,
    each to [/student/lessons/<id>] with the title and the description; for
    the empty array it shows the not-enrolled message. *)
Theorem lessons_listed
  (env : Env) (dom : string -> option string) (r : Response)
  (items : list value) :
  answers env r -> ok r = true -> json r = inr (VArr items) ->
  (forall lesson, In lesson items -> readable lesson = true) ->
  lessons_after_mount env dom
  = inr (match items with
         | [] => StudentLessonList.NotEnrolled
         | _ :: _ =>
             StudentLessonList.EnrolledLessons (map lesson_link_of items)
         end).
Proof.
  intros Hnet Hok Hjson Hitems. unfold lessons_after_mount.
  unfold_effect; tidy. rewrite Hnet; tidy. rewrite Hok; tidy.
  rewrite Hjson; tidy.
  unfold StudentLessonList.render.
  cbn [StudentLessonList.loading StudentLessonList.error
       StudentLessonList.lessons truthy negb length_is_zero and_then].
  destruct items as [|lesson items]; [reflexivity |].
  cbn [and_then call_map].
  rewrite (map_items_readable _ lesson_link_of (lesson :: items)
             lesson_link_readable Hitems).
  reflexivity.
Qed.

(** X9.  The list view has no guard for a body that is not a list: once
    loaded without error, a truthy [lessons] that is a boolean, a number, a
    string, or an object without a [length] makes rendering throw (calling
    [lessons.map]), and so does an array that holds a [null]. *)
Theorem lessons_render_throws (st : StudentLessonList.State) :
  StudentLessonList.loading st = false ->
  StudentLessonList.error st = None ->
  truthy (StudentLessonList.lessons st) = true ->
  (match StudentLessonList.lessons st with
   | VArr _ => False
   | VObj fields => lookup "length" fields = None
   | _ => True
   end ->
   StudentLessonList.render st
   = inl (Error (not_a_function_message "lessons.map")))
  /\ (forall before after,
         StudentLessonList.lessons st = VArr (before ++ VNull :: after) ->
         (forall lesson, In lesson before -> readable lesson = true) ->
         StudentLessonList.render st = inl (Error (null_read_message "id"))).
Proof.
  intros Hloaded Herror Htruthy. unfold StudentLessonList.render.
  rewrite Hloaded, Herror, Htruthy. cbn [negb and_then].
  split.
  - destruct (StudentLessonList.lessons st) as [| |b|n|s|items|fields];
      cbn in Htruthy |- *; try discriminate; intros Hshape;
      try contradiction; try reflexivity.
    + rewrite Htruthy. reflexivity.
    + rewrite Hshape. reflexivity.
  - intros before after Hlist Hbefore. rewrite Hlist.
    assert (Hmap : map_items StudentLessonList.lesson_link
                     (before ++ VNull :: after)
                   = inl (Error (null_read_message "id"))).
    { clear Hlist. induction before as [|x before IH]; [reflexivity |].
      cbn [app map_items].
      rewrite (lesson_link_readable x) by (apply Hbefore; left; reflexivity).
      cbn [and_then]. rewrite IH; [reflexivity |].
      intros y Hy. apply Hbefore. right. exact Hy. }
    destruct before; cbn [app length_is_zero and_then call_map];
      cbn [app] in Hmap; rewrite Hmap; reflexivity.
Qed.

(** X11.  The files section of a lesson shows one download link per file,
    in order, each carrying the file's id and the stored token in its
    address; it shows "no files" when the lesson has no [files], a falsy
    one, or an empty array. *)
Theorem files_listed (env : Env) (lesson : value) :
  readable lesson = true ->
  (truthy (prop lesson "files") = false ->
   StudentLessonDetails.files_section env lesson
   = inr StudentLessonDetails.NoFiles)
  /\ (forall items,
         prop lesson "files" = VArr items ->
         (forall file, In file items -> readable file = true) ->
         StudentLessonDetails.files_section env lesson
         = inr (match items with
                | [] => StudentLessonDetails.NoFiles
                | _ :: _ =>
                    StudentLessonDetails.FileLinks
                      (map (file_link_of env) items)
                end)).
Proof.
  intros Hlesson. unfold StudentLessonDetails.files_section.
  rewrite (get_prop_readable lesson "files" Hlesson). cbn [and_then].
  split.
  - intros Hfalsy. rewrite Hfalsy. reflexivity.
  - intros items Hfiles Hitems. rewrite Hfiles.
    cbn [truthy length_is_positive and_then].
    destruct items as [|file items]; [reflexivity |].
    cbn [and_then call_map].
    rewrite (map_items_readable _ (file_link_of env) (file :: items)
               (file_link_readable env) Hitems).
    reflexivity.
Qed.

End Pages.

(** ** The lesson page as a whole *)

Section LessonPage.
Context {RT : Runtime} {CMP : Comparisons RT} {REF : References RT}.

Lemma str_or_nonempty (s fallback : string) :
  nonempty fallback = true -> nonempty (str_or s fallback) = true.
Proof.
  intros H. unfold str_or. destruct s; [exact H | reflexivity].
Qed.

(** Every run of the attendance handler leaves a message on the page. *)
Lemma attendance_leaves_message
  (env : Env) (lessonId : value) (st st' : StudentLessonView.State)
  (dom : string -> option string) :
  view (invoke env (MarkAttendance lessonId st) dom) = AttendanceView st' ->
  nonempty (StudentLessonView.attendanceServerMessage st') = true.
Proof.
  run_handler; intros Hview; injection Hview as <-; cbn; try reflexivity.
  all: apply str_or_nonempty; reflexivity.
Qed.

Lemma loaded_page_is_not_loading
  (env : Env) (details : StudentLessonDetails.State)
  (st : StudentLessonView.State) :
  StudentLessonDetails.loading details = false ->
  StudentLessonPage.render env details st
  <> inr StudentLessonPage.LoadingScreen.
Proof.
  intros Hloaded. unfold StudentLessonPage.render. rewrite Hloaded.
  destruct (StudentLessonDetails.error details); [discriminate |].
  destruct (negb (truthy (StudentLessonDetails.lesson details)));
    [discriminate |].
  repeat match goal with
         | |- and_then ?x _ <> _ =>
             destruct x; cbn [and_then]; [discriminate |]
         end.
  discriminate.
Qed.

Lemma fetch_lesson_details_loaded
  (env : Env) (lessonId : value) (st : StudentLessonDetails.State)
  (w : World) :
  StudentLessonDetails.loading
    (snd (fst (StudentLessonDetails.fetchLessonDetails env lessonId st w)))
  = false.
Proof. run_effect; reflexivity. Qed.

(** X10.  A fresh lesson page never returns the loading screen once
    [fetchLessonDetails] has run.  For a 2xx answer with a JSON body it
    returns "Lesson Not Found" when the body is [null] or another falsy
    value; for a truthy body it builds the files section and returns the
    lesson page with the title, the description (or the fixed text when
    there is none) and a disabled submit button, or throws what the files
    section throws: so a body whose [files] holds a [null] makes the page
    throw.  When the body is not JSON, or the request is rejected, it
    returns the error screen with the parser's message or the network's
    reason. *)
Theorem lesson_page_after_mount_shown
  (env : Env) (lessonId : value) (dom : string -> option string) :
  lesson_page_after_mount env lessonId dom
  <> inr StudentLessonPage.LoadingScreen
  /\ (forall r,
        answers env r -> ok r = true ->
        (forall v,
            json r = inr v ->
            lesson_page_after_mount env lessonId dom
            = if truthy v
              then and_then (StudentLessonDetails.files_section env v)
                     (fun files =>
                        inr (lesson_page_of v files StudentLessonView.initial))
              else inr StudentLessonPage.LessonNotFound)
        /\ (forall v before after,
              json r = inr v -> truthy v = true ->
              prop v "files" = VArr (before ++ VNull :: after) ->
              (forall file, In file before -> readable file = true) ->
              lesson_page_after_mount env lessonId dom
              = inl (Error (null_read_message "id")))
        /\ (forall reason,
              json r = inl reason ->
              lesson_page_after_mount env lessonId dom
              = inr (StudentLessonPage.ErrorScreen
                       "Error fetching lesson" reason)))
  /\ (forall reason,
        (forall req, network env req = Rejected reason) ->
        lesson_page_after_mount env lessonId dom
        = inr (StudentLessonPage.ErrorScreen "Error fetching lesson" reason)).
Proof.
  assert (Hbody : forall r v,
             answers env r -> ok r = true -> json r = inr v ->
             lesson_page_after_mount env lessonId dom
             = if truthy v
               then and_then (StudentLessonDetails.files_section env v)
                      (fun files =>
                         inr (lesson_page_of v files StudentLessonView.initial))
               else inr StudentLessonPage.LessonNotFound).
  { intros r v Hnet Hok Hjson. unfold lesson_page_after_mount.
    unfold_effect; tidy. rewrite Hnet; tidy. rewrite Hok; tidy.
    rewrite Hjson; tidy.
    unfold StudentLessonPage.render.
    cbn [StudentLessonDetails.loading StudentLessonDetails.error
         StudentLessonDetails.lesson].
    destruct (truthy v) eqn:Htruthy; cbn [negb]; [ | reflexivity].
    rewrite !(get_prop_readable v _ (truthy_readable v Htruthy)).
    cbn [and_then].
    destruct (StudentLessonDetails.files_section env v); reflexivity. }
  unfold lesson_page_after_mount in *. split; [ | split ].
  - apply loaded_page_is_not_loading, fetch_lesson_details_loaded.
  - intros r Hnet Hok. split; [ | split ].
    + intros v Hjson. exact (Hbody r v Hnet Hok Hjson).
    + intros v before after Hjson Htruthy Hfiles Hbefore.
      rewrite (Hbody r v Hnet Hok Hjson), Htruthy.
      unfold StudentLessonDetails.files_section.
      rewrite (get_prop_readable v "files" (truthy_readable v Htruthy)).
      rewrite Hfiles. cbn [and_then truthy].
      assert (Hmap : map_items (StudentLessonDetails.file_link env)
                       (before ++ VNull :: after)
                     = inl (Error (null_read_message "id"))).
      { clear Hfiles. induction before as [|x before IH]; [reflexivity |].
        cbn [app map_items].
        rewrite (file_link_readable env x)
          by (apply Hbefore; left; reflexivity).
        cbn [and_then]. rewrite IH; [reflexivity |].
        intros y Hy. apply Hbefore. right. exact Hy. }
      destruct before; cbn [app length_is_positive and_then call_map];
        cbn [app] in Hmap; rewrite Hmap; reflexivity.
    + intros reason Hjson. unfold_effect; tidy. rewrite Hnet; tidy.
      rewrite Hok; tidy. rewrite Hjson; tidy. reflexivity.
  - intros reason Hnet. unfold_effect; tidy. rewrite Hnet; tidy. reflexivity.
Qed.

(** X21.  The attendance page cannot show the outcome of an attempt.  With
    the lesson loaded and its files section built, the component returns
    the page, with the submit button disabled exactly while loading or
    without a file, only as long as there is no message; every run of the
    attendance handler, whatever its outcome, leaves a message, and the
    component then throws on the [Alert] it never imports. *)
Theorem attendance_page_breaks_after_attempt
  (env : Env) (details : StudentLessonDetails.State)
  (files : StudentLessonDetails.FilesSection) :
  StudentLessonDetails.loading details = false ->
  StudentLessonDetails.error details = None ->
  truthy (StudentLessonDetails.lesson details) = true ->
  StudentLessonDetails.files_section env (StudentLessonDetails.lesson details)
  = inr files ->
  (forall st,
      StudentLessonView.attendanceServerMessage st = "" ->
      StudentLessonPage.render env details st
      = inr (lesson_page_of (StudentLessonDetails.lesson details) files st))
  /\ (forall handler_env lessonId st dom st',
         view (invoke handler_env (MarkAttendance lessonId st) dom)
         = AttendanceView st' ->
         StudentLessonPage.render env details st'
         = inl (Error (not_defined_message "Alert"))).
Proof.
  intros Hloaded Herror Hlesson Hfiles.
  unfold StudentLessonPage.render.
  rewrite Hloaded, Herror, Hlesson, Hfiles. cbn [negb].
  rewrite !(get_prop_readable _ _ (truthy_readable _ Hlesson)).
  cbn [and_then]. split.
  - intros st Hquiet. unfold StudentLessonPage.alert. rewrite Hquiet.
    reflexivity.
  - intros handler_env lessonId st dom st' Hview.
    unfold StudentLessonPage.alert.
    rewrite (attendance_leaves_message _ _ _ _ Hview). reflexivity.
Qed.

End LessonPage.

(** ** The static attendance page *)

Section Script.
Context {RT : Runtime}.

Lemma split_nonempty (sep : ascii) (s : string) : MarkPage.split sep s <> [].
Proof.
  destruct s as [|c s]; cbn; [discriminate |].
  destruct (Ascii.eqb c sep); [discriminate |].
  destruct (MarkPage.split sep s); discriminate.
Qed.

(** The last piece of a path that has no separator in its last part. *)
Lemma last_split_plain (sep : ascii) (s : string) :
  contains (String sep "") s = false ->
  MarkPage.split sep s = [s].
Proof.
  induction s as [|c s IH]; [reflexivity |].
  cbn [contains String.prefix]. intros H.
  apply orb_false_elim in H as [Hhead Htail].
  cbn [MarkPage.split].
  destruct (Ascii.eqb_spec c sep) as [->|Hne].
  - exfalso. destruct (ascii_dec sep sep) as [_|Hn]; [ | contradiction].
    destruct s; discriminate.
  - rewrite (IH Htail). reflexivity.
Qed.

Lemma split_append (sep : ascii) (dir rest : string) :
  exists segment segments,
    MarkPage.split sep (dir ++ String sep rest) = segment :: segments
    /\ segments <> []
    /\ last segments "" = last (MarkPage.split sep rest) "".
Proof.
  induction dir as [|c dir (seg & segs & Hsplit & Hne & Hlast)];
    cbn [append MarkPage.split].
  - rewrite Ascii.eqb_refl. do 2 eexists.
    split; [reflexivity | split; [apply split_nonempty | reflexivity]].
  - rewrite Hsplit. destruct (Ascii.eqb c sep); do 2 eexists.
    + split; [reflexivity | split; [discriminate |]].
      rewrite <- Hlast. destruct segs; [contradiction | reflexivity].
    + split; [reflexivity | split; assumption].
Qed.

(** X12.  The lesson id the page reads from its address is the part after
    the last slash: for an address [dir/id] where [id] holds no slash,
    [pathname.split('/').pop()] is [id]. *)
Theorem lesson_id_is_last_segment (dir id : string) :
  contains "/" id = false ->
  MarkPage.pop (MarkPage.split "/" (dir ++ "/" ++ id)) = VStr id.
Proof.
  intros Hplain. unfold MarkPage.pop.
  change (dir ++ "/" ++ id) with (dir ++ String "/" id).
  destruct (split_append "/" dir id) as (seg & segs & Hsplit & Hne & Hlast).
  rewrite Hsplit.
  replace (last (seg :: segs) "") with (last segs "")
    by (destruct segs; [contradiction | reflexivity]).
  rewrite Hlast, (last_split_plain "/" id Hplain). reflexivity.
Qed.


Lemma last_split_shape (sep : ascii) (s : string) :
  exists id before,
    last (MarkPage.split sep s) "" = id
    /\ contains (String sep "") id = false
    /\ s = before ++ id
    /\ (before = "" \/ exists dir, before = dir ++ String sep "").
Proof.
  induction s as [|c s (id & before & Hlast & Hplain & Hcut & Hbefore)].
  - exists "", "". repeat split; auto.
  - cbn [MarkPage.split].
    destruct (Ascii.eqb_spec c sep) as [->|Hne].
    + exists id, (String sep before). repeat split.
      * pose proof (split_nonempty sep s) as Hs.
        destruct (MarkPage.split sep s); [contradiction | exact Hlast].
      * exact Hplain.
      * cbn [append]. rewrite <- Hcut. reflexivity.
      * right. destruct Hbefore as [->|[dir ->]].
        -- exists "". reflexivity.
        -- exists (String sep dir). reflexivity.
    + destruct Hbefore as [->|[dir ->]].
      * cbn [append] in Hcut. subst s. clear Hlast.
        rewrite (last_split_plain sep id Hplain).
        exists (String c id), "". repeat split; auto.
        cbn [contains String.prefix].
        destruct (ascii_dec sep c) as [->|_]; [contradiction |].
        exact Hplain.
      * destruct (split_append sep dir id) as (seg & segs & Hsplit & Hsegs & _).
        replace ((dir ++ String sep "") ++ id) with (dir ++ String sep id)
          in Hcut
          by (clear; induction dir as [|d dir IH];
              [reflexivity | cbn [append]; rewrite IH; reflexivity]).
        rewrite Hcut in Hlast |- *. rewrite Hsplit in Hlast |- *.
        exists id, (String c (dir ++ String sep "")). repeat split.
        -- destruct segs; [contradiction | exact Hlast].
        -- exact Hplain.
        -- cbn [append]. f_equal.
           clear. induction dir as [|d dir IH];
             [reflexivity | cbn [append]; rewrite IH; reflexivity].
        -- right. exists (String c dir). reflexivity.
Qed.

(** X13.  Whatever the address, the lesson id the page reads from it is a
    string without a slash that ends the address, and what stands before it
    is empty or ends with a slash; an address that ends with a slash gives
    the empty id. *)
Theorem lesson_id_shape (path : string) :
  exists id before,
    MarkPage.pop (MarkPage.split "/" path) = VStr id
    /\ contains "/" id = false
    /\ path = before ++ id
    /\ (before = "" \/ exists dir, before = dir ++ "/").
Proof.
  destruct (last_split_shape "/" path)
    as (id & before & Hlast & Hplain & Hcut & Hbefore).
  exists id, before. repeat split; try assumption.
  unfold MarkPage.pop.
  pose proof (split_nonempty "/" path) as Hne.
  destruct (MarkPage.split "/" path); [contradiction |].
  rewrite Hlast. reflexivity.
Qed.

(** X14.  When the camera is refused the click does nothing but clear the
    status line: no request is sent, the button keeps its label, the video
    stays as it was, and the refusal is not reported on the page. *)
Theorem click_without_camera
  (b : MarkPage.Browser) (p : MarkPage.Page) (reason : string) :
  MarkPage.media b = MarkPage.Denied reason ->
  let run := MarkPage.click b p in
  MarkPage.uploads run = []
  /\ MarkPage.unhandled run = Some (Error reason)
  /\ MarkPage.status_text (MarkPage.page run) = ""
  /\ MarkPage.btn_text (MarkPage.page run) = MarkPage.btn_text p
  /\ MarkPage.video_hidden (MarkPage.page run) = MarkPage.video_hidden p
  /\ MarkPage.camera_on (MarkPage.page run) = MarkPage.camera_on p.
Proof.
  intros Hmedia run; subst run.
  unfold MarkPage.click, MarkPage.on_click. rewrite Hmedia.
  repeat split.
Qed.

(** X15.  With the camera granted a click sends exactly one request, a POST
    without headers to [/api/attendance/<id>].  The page is tidied up only
    when the answer can be read: then the status line shows the outcome
    (for a refusal the cross and the printed [detail]), the camera is
    stopped, the video hidden and the button label restored.  When the
    request is rejected, the body is not JSON, or a refusal carries the body
    [null], the failure is not handled: the camera stays on, the video
    stays visible, the button keeps its busy label and the status line
    stays empty. *)
Theorem click_tidies_up_only_after_an_answer
  (b : MarkPage.Browser) (p : MarkPage.Page) :
  MarkPage.media b = MarkPage.Granted ->
  let run := MarkPage.click b p in
  exists request,
    MarkPage.uploads run = [request]
    /\ MarkPage.upload_method request = "POST"
    /\ MarkPage.upload_headers request = []
    /\ MarkPage.upload_url request
       = "/api/attendance/"
         ++ to_string (MarkPage.pop (MarkPage.split "/" (MarkPage.pathname b)))
    /\ ((exists res data,
            MarkPage.server b request = Resolved res
            /\ json res = inr data
            /\ (ok res = true \/ readable data = true)
            /\ MarkPage.unhandled run = None
            /\ MarkPage.status_text (MarkPage.page run)
               = (if ok res then "✅ Отмечено!"
                  else "❌ " ++ to_string (prop data "detail"))
            /\ MarkPage.camera_on (MarkPage.page run) = false
            /\ MarkPage.video_hidden (MarkPage.page run) = true
            /\ MarkPage.btn_text (MarkPage.page run) = "Отметить присутствие")
        \/ (match MarkPage.server b request with
            | Rejected _ => True
            | Resolved res =>
                match json res with
                | inl _ => True
                | inr data => ok res = false /\ readable data = false
                end
            end
            /\ (exists e, MarkPage.unhandled run = Some e)
            /\ MarkPage.status_text (MarkPage.page run) = ""
            /\ MarkPage.camera_on (MarkPage.page run) = true
            /\ MarkPage.video_hidden (MarkPage.page run) = false
            /\ MarkPage.btn_text (MarkPage.page run) = "Делаем снимок...")).
Proof.
  intros Hmedia run; subst run.
  unfold MarkPage.click, MarkPage.on_click. rewrite Hmedia.
  unfold MarkPage.on_timer. cbv zeta.
  match goal with
  | |- context [MarkPage.server b ?q] => set (request := q)
  end.
  exists request. unfold response_json.
  destruct (MarkPage.server b request) as [reason|res] eqn:Hserver.
  - cbn. repeat split. right. repeat split. eexists; reflexivity.
  - destruct (json res) as [reason|data] eqn:Hjson; cbn [and_then].
    + cbn. repeat split. right. rewrite ?Hjson. repeat split.
      eexists; reflexivity.
    + destruct (ok res) eqn:Hok.
      * cbn. repeat split. left. exists res, data. rewrite Hok.
        repeat split; auto.
      * destruct (readable data) eqn:Hdata.
        -- rewrite (get_prop_readable data "detail" Hdata). cbn.
           repeat split. left. exists res, data. rewrite Hok.
           repeat split; auto.
        -- destruct data; try discriminate; cbn; repeat split; right;
             rewrite ?Hjson; repeat split; try discriminate; try (eexists; reflexivity); auto.
Qed.

End Script.

(** ** What the action handlers send and show *)

Section Requests.
Context {RT : Runtime}.

(** X16.  Every request an action handler issues goes to a path under
    [/api/] of the configured API address and carries the header
    [Authorization: Bearer <token>] with what [localStorage] holds; the two
    destructive handlers use DELETE and the others POST; and a handler that
    tests the credential never sends without one. *)
Theorem requests_are_authorized_api_calls
  (env : Env) (inv : Invocation) (dom : string -> option string)
  (req : Request) :
  In req (requests (world (invoke env inv dom))) ->
  In ("Authorization", "Bearer " ++ to_string (localStorage_getItem_token env))
     (headers req)
  /\ (exists path, url req = api_base env ++ "/api/" ++ path)
  /\ method req = (if destructive inv then "DELETE" else "POST")
  /\ (credential_checked inv = true -> credential_present env = true).
Proof.
  unfold credential_present.
  destruct inv; cbn [destructive credential_checked]; run_handler; observe;
    intros Hin; unpack.
  all: cbn [headers url method destructive credential_checked In].
  all: split; [auto |].
  all: split; [eexists; reflexivity |].
  all: split; [reflexivity |].
  all: intros; try assumption; try discriminate.
Qed.

(** X17.  What is sent is what was selected: the three file handlers send a
    form with the selected file as its only field [file]; enroll sends the
    JSON of [user_id], the selected student id parsed as an integer, and
    [lesson_id]; unenroll sends the row's [user_id] and the lesson's id;
    delete sends no body. *)
Theorem requests_carry_the_selection
  (env : Env) (inv : Invocation) (dom : string -> option string)
  (req : Request) :
  In req (requests (world (invoke env inv dom))) ->
  match inv with
  | UploadLessonFile _ st =>
      exists f, LessonFileUpload.file st = Some f
                /\ body req = FormData [("file", f)]
  | RegisterFace st =>
      exists f, FaceRegistrationPage.selectedFile st = Some f
                /\ body req = FormData [("file", f)]
  | MarkAttendance _ st =>
      exists f, StudentLessonView.selectedFile st = Some f
                /\ body req = FormData [("file", f)]
  | EnrollStudent record st =>
      body req
      = JsonText
          (VObj [("user_id",
                  VNum (parseInt (to_string (EnrollStudentForm.studentId st))));
                 ("lesson_id", prop record "id")])
  | UnenrollStudent currentLesson enrollmentRecord =>
      body req
      = JsonText (VObj [("user_id", prop enrollmentRecord "user_id");
                        ("lesson_id", prop currentLesson "id")])
  | DeleteFile _ => body req = NoBody
  end.
Proof.
  unfold prop.
  destruct inv; run_handler; observe; intros Hin; unpack.
  all: cbn [body]; try reflexivity.
  all: eexists; split; reflexivity.
Qed.

(** X18.  An invocation shows at most one notification, except face
    registration, which can show two. *)
Theorem notifications_are_few
  (env : Env) (inv : Invocation) (dom : string -> option string) :
  length (notifications (world (invoke env inv dom)))
  <= match inv with RegisterFace _ => 2 | _ => 1 end.
Proof.
  destruct inv; run_handler; observe; lia.
Qed.

(** X19.  Face registration announces success before it reads the body: for
    a 2xx answer whose JSON body is [null] it shows the success
    notification and then an error, keeps the file selected and leaves the
    page on the error message. *)
Theorem register_face_null_body
  (env : Env) (st : FaceRegistrationPage.State) (f : File)
  (dom : string -> option string) (r : Response) :
  FaceRegistrationPage.selectedFile st = Some f ->
  credential_present env = true ->
  answers env r -> ok r = true -> json r = inr VNull ->
  let out := invoke env (RegisterFace st) dom in
  notifications (world out)
  = [{| note_text := "Face registered successfully!";
        note_type := Some Success |};
     {| note_text := "Error: " ++ null_read_message "message";
        note_type := Some ErrorLevel |}]
  /\ exists st',
       view out = FaceView st'
       /\ FaceRegistrationPage.selectedFile st' = Some f
       /\ FaceRegistrationPage.serverMessageType st' = ErrorLevel
       /\ FaceRegistrationPage.isLoading st' = false.
Proof.
  intros Hfile Hcred Hnet Hok Hjson out; subst out.
  unfold credential_present in Hcred.
  unfold_handler; tidy.
  repeat (first [ rewrite Hfile | rewrite Hcred | rewrite Hnet | rewrite Hok
                | rewrite Hjson | progress cbn [get_prop] | split_match ];
          tidy).
  observe.
  split; [reflexivity |].
  eexists. split; [reflexivity |]. cbn. rewrite ?Hfile. repeat split.
Qed.


(** X20.  A failure notification of upload, enroll, unenroll, delete or
    attendance always names a reason: the text is never the bare prefix,
    because an empty message falls back to the handler's fixed one.  Face
    registration has no such fallback in its notification: a refusal whose
    [detail] is the empty array is shown as the bare ["Error: "], while the
    page itself shows the fallback text. *)
Theorem failure_reason_is_never_empty
  (env : Env) (dom : string -> option string) :
  (forall inv n,
      match inv with RegisterFace _ => False | _ => True end ->
      In n (notifications (world (invoke env inv dom))) ->
      note_text n <> "Error: " /\ note_text n <> "Attendance Error: ")
  /\ (forall st f r,
         FaceRegistrationPage.selectedFile st = Some f ->
         credential_present env = true ->
         answers env r -> ok r = false ->
         json r = inr (VObj [("detail", VArr [])]) ->
         let out := invoke env (RegisterFace st) dom in
         notifications (world out)
         = [{| note_text := "Error: "; note_type := Some ErrorLevel |}]
         /\ exists st',
              view out = FaceView st'
              /\ FaceRegistrationPage.serverMessage st'
                 = VStr "An unexpected error occurred.").
Proof.
  split.
  - intros inv n Hkind.
    destruct inv; try contradiction; run_handler; observe; intros Hin; unpack.
    all: cbn [note_text]; unfold str_or.
    all: repeat match goal with
                | |- context [nonempty ?m] => destruct m; cbn [nonempty]
                end.
    all: cbn; split; discriminate.
  - intros st f r Hfile Hcred Hnet Hok Hjson out; subst out.
    unfold credential_present in Hcred.
    unfold_handler; tidy.
    repeat (first [ rewrite Hfile | rewrite Hcred | rewrite Hnet | rewrite Hok
                  | rewrite Hjson | progress cbn [get_prop lookup String.eqb
                                                    Ascii.eqb Bool.eqb]
                  | split_match ];
            tidy).
    observe. split; [reflexivity |].
    eexists. split; reflexivity.
Qed.

End Requests.

(** ** These properties on concrete runs *)

Module MoreRuns.
Import Sample Cases.
#[local] Existing Instance integer_runtime.
#[local] Existing Instance comparisons.
#[local] Existing Instance references.

Lemma upload_name_follows_file_witness :
  named upload_ready /\ named LessonFileUpload.initial.
Proof.
  split.
  - reflexivity.
  - apply (proj2 (@upload_name_follows_file integer_runtime)
             (server (Some "tok") done) lesson upload_ready inputs
             LessonFileUpload.initial);
      reflexivity.
Defined.

Lemma pick_then_upload_witness :
  answers (server (Some "tok") done) done
  /\ view (invoke (server (Some "tok") done)
                  (UploadLessonFile lesson upload_ready) inputs)
     = UploadView LessonFileUpload.initial.
Proof.
  split.
  - intros req. reflexivity.
  - apply (@pick_then_upload integer_runtime (server (Some "tok") done) lesson
             LessonFileUpload.initial face inputs done
             (fun req => eq_refl) eq_refl eq_refl eq_refl).
Defined.

Lemma register_button_after_attempt_witness :
  Buttons.register_disabled face_ready = false
  /\ exists st',
       view (invoke offline (RegisterFace face_ready) inputs) = FaceView st'
       /\ FaceRegistrationPage.isLoading st' = false
       /\ (FaceRegistrationPage.serverMessageType st' = Success
           /\ Buttons.register_disabled st' = true
           \/ FaceRegistrationPage.serverMessageType st' = ErrorLevel
              /\ Buttons.register_disabled st' = false).
Proof.
  split.
  - reflexivity.
  - apply (@register_button_after_attempt integer_runtime offline inputs
             face_ready).
    reflexivity.
Defined.

Lemma download_addresses_agree_witness :
  credential_present offline = true
  /\ exists address link,
       DownloadButton.onClick offline notes
       = inr [DownloadButton.WindowOpen address "_blank"]
       /\ StudentLessonDetails.file_link offline notes = inr link
       /\ StudentLessonDetails.href link = address.
Proof.
  split.
  - reflexivity.
  - apply (@download_addresses_agree integer_runtime offline notes);
      reflexivity.
Defined.

Lemma download_without_credential_witness :
  stored_token signed_out = None
  /\ DownloadButton.onClick signed_out notes
     = inr [DownloadButton.ConsoleWarn
              "Authentication token not found. Please log in."].
Proof.
  split.
  - reflexivity.
  - apply (@download_without_credential integer_runtime signed_out notes);
      reflexivity.
Defined.

Lemma lessons_error_screen_witness :
  (forall req, network offline req = Rejected "Failed to fetch")
  /\ lessons_after_mount offline no_inputs
     = inr (StudentLessonList.ErrorScreen
              "Error fetching lessons" "Failed to fetch").
Proof.
  split.
  - intros req. reflexivity.
  - apply (proj1 (@lessons_error_screen integer_runtime comparisons offline
                    no_inputs)).
    intros req. reflexivity.
Defined.

Lemma lessons_listed_witness :
  answers (server (Some "tok") listing) listing
  /\ lessons_after_mount (server (Some "tok") listing) no_inputs
     = inr (StudentLessonList.EnrolledLessons
              (map lesson_link_of [algebra; logic])).
Proof.
  split.
  - intros req. reflexivity.
  - apply (@lessons_listed integer_runtime comparisons
             (server (Some "tok") listing) no_inputs listing [algebra; logic]
             (fun req => eq_refl) eq_refl eq_refl).
    intros lesson [<-|[<-|[]]]; reflexivity.
Defined.

Lemma lessons_render_throws_witness :
  truthy (StudentLessonList.lessons enveloped) = true
  /\ StudentLessonList.render enveloped
     = inl (Error (not_a_function_message "lessons.map")).
Proof.
  split.
  - reflexivity.
  - apply (proj1 (@lessons_render_throws integer_runtime comparisons enveloped
                    eq_refl eq_refl eq_refl)).
    reflexivity.
Defined.

Lemma lesson_page_after_mount_shown_witness :
  answers (server (Some "tok") (reply 200 (inr lesson_with_files) ""))
          (reply 200 (inr lesson_with_files) "")
  /\ lesson_page_after_mount
       (server (Some "tok") (reply 200 (inr lesson_with_files) ""))
       (VStr "7") no_inputs
     = inr (lesson_page_of lesson_with_files
              (StudentLessonDetails.FileLinks
                 [file_link_of
                    (server (Some "tok") (reply 200 (inr lesson_with_files) ""))
                    notes])
              StudentLessonView.initial).
Proof.
  split.
  - intros req. reflexivity.
  - apply (proj1 (proj1 (proj2
             (@lesson_page_after_mount_shown integer_runtime comparisons
                references
                (server (Some "tok") (reply 200 (inr lesson_with_files) ""))
                (VStr "7") no_inputs))
             (reply 200 (inr lesson_with_files) "") (fun req => eq_refl)
             eq_refl)
             lesson_with_files eq_refl).
Defined.

Lemma files_listed_witness :
  readable lesson_with_files = true
  /\ StudentLessonDetails.files_section offline lesson_with_files
     = inr (StudentLessonDetails.FileLinks [file_link_of offline notes]).
Proof.
  split.
  - reflexivity.
  - apply (proj2 (@files_listed integer_runtime comparisons offline
                    lesson_with_files eq_refl) [notes] eq_refl).
    intros file [<-|[]]. reflexivity.
Defined.

Lemma lesson_id_is_last_segment_witness :
  contains "/" "42" = false
  /\ MarkPage.pop (MarkPage.split "/" ("/lesson" ++ "/" ++ "42")) = VStr "42".
Proof.
  split.
  - reflexivity.
  - apply (@lesson_id_is_last_segment integer_runtime "/lesson" "42").
    reflexivity.
Defined.

Lemma click_without_camera_witness :
  MarkPage.media refused = MarkPage.Denied "Permission denied"
  /\ MarkPage.uploads (MarkPage.click refused (MarkPage.idle "Mark")) = [].
Proof.
  split.
  - reflexivity.
  - apply (@click_without_camera integer_runtime refused (MarkPage.idle "Mark")
             "Permission denied").
    reflexivity.
Defined.

Lemma click_tidies_up_only_after_an_answer_witness :
  MarkPage.media (booth (Resolved done)) = MarkPage.Granted
  /\ exists request,
       MarkPage.uploads (MarkPage.click (booth (Resolved done))
                                        (MarkPage.idle "Mark"))
       = [request]
       /\ MarkPage.upload_method request = "POST".
Proof.
  split.
  - reflexivity.
  - destruct (@click_tidies_up_only_after_an_answer integer_runtime
                (booth (Resolved done)) (MarkPage.idle "Mark") eq_refl)
      as (request & Hsent & Hmethod & _).
    exists request. split; assumption.
Defined.

Lemma requests_are_authorized_api_calls_witness :
  In enrollment
     (requests (world (invoke (server (Some "tok") done)
                              (EnrollStudent lesson enroll_ready) no_inputs)))
  /\ method enrollment = "POST".
Proof.
  split.
  - left. reflexivity.
  - apply (@requests_are_authorized_api_calls integer_runtime
             (server (Some "tok") done) (EnrollStudent lesson enroll_ready)
             no_inputs enrollment).
    left. reflexivity.
Defined.

Lemma requests_carry_the_selection_witness :
  In enrollment
     (requests (world (invoke (server (Some "tok") done)
                              (EnrollStudent lesson enroll_ready) no_inputs)))
  /\ body enrollment
     = JsonText (VObj [("user_id", num 5); ("lesson_id", num 7)]).
Proof.
  split.
  - left. reflexivity.
  - apply (@requests_carry_the_selection integer_runtime
             (server (Some "tok") done) (EnrollStudent lesson enroll_ready)
             no_inputs enrollment).
    left. reflexivity.
Defined.

Lemma register_face_null_body_witness :
  json (reply 200 (inr VNull) "") = inr VNull
  /\ length (notifications
               (world (invoke (server (Some "tok") (reply 200 (inr VNull) ""))
                              (RegisterFace face_ready) inputs))) = 2.
Proof.
  split.
  - reflexivity.
  - rewrite (proj1 (@register_face_null_body integer_runtime
                      (server (Some "tok") (reply 200 (inr VNull) ""))
                      face_ready face inputs (reply 200 (inr VNull) "")
                      eq_refl eq_refl (fun req => eq_refl) eq_refl eq_refl)).
    reflexivity.
Defined.

Lemma failure_reason_is_never_empty_witness :
  In {| note_text := "Error: Failed to fetch"; note_type := Some Warning |}
     (notifications (world (invoke offline (EnrollStudent lesson enroll_ready)
                                   no_inputs)))
  /\ "Error: Failed to fetch" <> "Error: ".
Proof.
  split.
  - left. reflexivity.
  - apply (proj1 (@failure_reason_is_never_empty integer_runtime offline
                    no_inputs)
             (EnrollStudent lesson enroll_ready)
             {| note_text := "Error: Failed to fetch";
                note_type := Some Warning |} I).
    left. reflexivity.
Defined.

Lemma attendance_page_breaks_after_attempt_witness :
  truthy (StudentLessonDetails.lesson shown_lesson) = true
  /\ StudentLessonPage.render offline shown_lesson
       {| StudentLessonView.selectedFile := Some face;
          StudentLessonView.isAttendanceLoading := false;
          StudentLessonView.attendanceServerMessage := "Failed to fetch";
          StudentLessonView.attendanceServerMessageType := ErrorLevel |}
     = inl (Error "Alert is not defined").
Proof.
  split.
  - reflexivity.
  - apply (proj2 (@attendance_page_breaks_after_attempt integer_runtime
                    comparisons references offline shown_lesson
                    (StudentLessonDetails.FileLinks [file_link_of offline notes])
                    eq_refl eq_refl eq_refl eq_refl)
             offline (VStr "7") attendance_ready inputs).
    reflexivity.
Defined.

End MoreRuns.
